(** * XET Composer: the TokenVesting contract and the submit handler

    A shallow embedding of [contracts/TokenVesting.sol.tera] (Solidity
    ^0.8.19) and of the payload construction of [frontend/src/app/page.tsx].

    Conventions.
    - A [uint256] is an [N]; Solidity 0.8 arithmetic is checked, so every
      [+], [-], [*] and [/] of the source is a function into [result] that
      reverts with the compiler's panic code when the exact value does not
      fit (0x11) or the divisor is zero (0x12).
    - An [address] is an [N]; [address(0)] is [0].
    - A state changing function is a [tx]: it threads the world state and
      may revert.  The state a reverting body had reached is kept by the
      monad; [transact] is the call boundary of the EVM, which discards it.
    - The vested token is any implementation of the [IERC20] interface. *)

From Stdlib Require Import NArith ZArith Lia Ascii String.
From Stdlib Require Import DecimalString DecimalN DecimalPos.
From stdpp Require Import base gmap strings.

Open Scope N_scope.

(** ** Solidity 0.8: checked arithmetic and reverts *)

Module Sol.

Definition address := N.

Definition MAX_UINT256 : N := Eval vm_compute in 2 ^ 256 - 1.

(** Why a call reverted: a compiler panic, a [require] string, a custom
    error of a library, or a revert bubbling up from an external call. *)
Inductive failure :=
| Panic (code : N)
| Error (msg : string)
| CustomError (name : string)
| ExternalRevert.

Inductive result (A : Type) :=
| Ok (a : A)
| Revert (f : failure).
Arguments Ok {A} a.
Arguments Revert {A} f.

Definition bind {A B} (r : result A) (k : A -> result B) : result B :=
  match r with
  | Ok a => k a
  | Revert f => Revert f
  end.

Definition ARITHMETIC : N := 17.      (* Panic(0x11) *)
Definition DIVISION_BY_ZERO : N := 18. (* Panic(0x12) *)

Definition checked_add (a b : N) : result N :=
  if a + b <=? MAX_UINT256 then Ok (a + b) else Revert (Panic ARITHMETIC).

Definition checked_sub (a b : N) : result N :=
  if b <=? a then Ok (a - b) else Revert (Panic ARITHMETIC).

Definition checked_mul (a b : N) : result N :=
  if a * b <=? MAX_UINT256 then Ok (a * b) else Revert (Panic ARITHMETIC).

Definition checked_div (a b : N) : result N :=
  if b =? 0 then Revert (Panic DIVISION_BY_ZERO) else Ok (a / b).

Definition require (c : bool) (msg : string) : result unit :=
  if c then Ok tt else Revert (Error msg).

End Sol.
Import Sol.

Declare Scope sol_scope.
Delimit Scope sol_scope with sol.
Notation "x <- r ; k" := (bind r (fun x => k))
  (at level 100, r at next level, right associativity) : sol_scope.
Notation "r ;; k" := (bind r (fun _ => k))
  (at level 100, right associativity) : sol_scope.

(** ** The ERC-20 interface of the vested token

    [IERC20] is imported from OpenZeppelin (line 4 of the contract); the
    contract uses two of its functions.  [balanceOf] is a view.
    [transfer tok sender to value] is the call [token.transfer(to, value)]
    made by [sender]: it returns a boolean and a new token state, or it
    reverts. *)

Inductive call_outcome (T : Type) :=
| Returned (ok : bool) (tok' : T)
| Reverted.
Arguments Returned {T} ok tok'.
Arguments Reverted {T}.

Class IERC20 (T : Type) := {
  balanceOf : T -> address -> N;
  transfer : T -> address -> address -> N -> call_outcome T
}.

(** ** Contract state *)

(** [ReentrancyGuard._status]. *)
Inductive guard_status := NOT_ENTERED | ENTERED.

(** The five immutables and the storage of [TokenVesting], with the storage
    of its two bases ([Ownable._owner], [ReentrancyGuard._status]) and the
    address the instance is deployed at ([address(this)]). *)
Record TokenVesting := {
  this : address;
  token : address;
  beneficiary : address;
  start_time : N;
  cliff_duration : N;
  duration : N;
  released : N;
  _owner : address;
  _status : guard_status
}.

(** The part of the chain state the contract reads and writes: the state of
    the token contract and the vesting contract's own storage. *)
Record world (T : Type) := {
  erc20 : T;
  vesting : TokenVesting
}.
Arguments erc20 {T} w.
Arguments vesting {T} w.
Arguments Build_world {T} erc20 vesting.

Section Contract.
Context {T : Type} `{IERC20 T}.
Local Open Scope sol_scope.

(** [token.balanceOf(address(this)) + released] as exact numbers. *)
Definition total_ever_held (w : world T) : N :=
  balanceOf (erc20 w) (this (vesting w)) + released (vesting w).

(** Lines 80-96. *)
Definition _vested_amount (w : world T) (_timestamp : N) : result N :=
  let v := vesting w in
  total_balance <- checked_add (balanceOf (erc20 w) (this v)) (released v);
  cliff_end <- checked_add (start_time v) (cliff_duration v);
  if _timestamp <? cliff_end then Ok 0
  else
    vesting_end <- checked_add (start_time v) (duration v);
    if vesting_end <=? _timestamp then Ok total_balance
    else
      time_passed <- checked_sub _timestamp (start_time v);
      product <- checked_mul total_balance time_passed;
      checked_div product (duration v).

(** Lines 57-59; [block_timestamp] is [block.timestamp]. *)
Definition releasable_amount (block_timestamp : N) (w : world T) : result N :=
  vested <- _vested_amount w block_timestamp;
  checked_sub vested (released (vesting w)).

End Contract.

(** ** State changing calls *)

(** A body that runs on the world state.  On a revert the second component
    is the state the body had reached when it stopped. *)
Definition tx (T A : Type) : Type := world T -> result A * world T.

Module Tx.

Definition ret {T A} (a : A) : tx T A := fun w => (Ok a, w).

Definition bind {T A B} (m : tx T A) (k : A -> tx T B) : tx T B :=
  fun w =>
    match m w with
    | (Ok a, w') => k a w'
    | (Revert f, w') => (Revert f, w')
    end.

(** A view or a checked operation inside a body: the state is read only. *)
Definition lift {T A} (r : world T -> result A) : tx T A :=
  fun w => (r w, w).

Definition revert {T A} (f : failure) : tx T A := fun w => (Revert f, w).

Definition modify {T} (f : TokenVesting -> TokenVesting) : tx T unit :=
  fun w => (Ok tt, Build_world (erc20 w) (f (vesting w))).

End Tx.

Declare Scope tx_scope.
Delimit Scope tx_scope with tx.
Notation "x <- m ; k" := (Tx.bind m (fun x => k))
  (at level 100, m at next level, right associativity) : tx_scope.
Notation "m ;; k" := (Tx.bind m (fun _ => k))
  (at level 100, right associativity) : tx_scope.

(** The call boundary: the EVM keeps the state a call reached only when the
    call returns; a revert restores the state the call started from. *)
Definition transact {T A} (m : tx T A) (w : world T) : result A * world T :=
  match m w with
  | (Ok a, w') => (Ok a, w')
  | (Revert f, _) => (Revert f, w)
  end.

Definition set_released (r : N) (v : TokenVesting) : TokenVesting :=
  {| this := this v; token := token v; beneficiary := beneficiary v;
     start_time := start_time v; cliff_duration := cliff_duration v;
     duration := duration v; released := r;
     _owner := _owner v; _status := _status v |}.

Definition set_status (s : guard_status) (v : TokenVesting) : TokenVesting :=
  {| this := this v; token := token v; beneficiary := beneficiary v;
     start_time := start_time v; cliff_duration := cliff_duration v;
     duration := duration v; released := released v;
     _owner := _owner v; _status := s |}.

Section Release.
Context {T : Type} `{IERC20 T}.
Local Open Scope tx_scope.

(** The external call [token.transfer(to, value)], made by the vesting
    contract.  A revert of the callee bubbles up. *)
Definition token_transfer (to : address) (value : N) : tx T bool :=
  fun w =>
    match transfer (erc20 w) (this (vesting w)) to value with
    | Returned ok tok' => (Ok ok, Build_world tok' (vesting w))
    | Reverted => (Revert ExternalRevert, w)
    end.

(** The modifier of OpenZeppelin's [ReentrancyGuard] (imported at line 6,
    not part of this repository): refuse a call made while the guard is
    entered, enter, run the body, leave. *)
Definition nonReentrant {A} (body : tx T A) : tx T A :=
  s <- Tx.lift (fun w => Ok (_status (vesting w)));
  match s with
  | ENTERED => Tx.revert (CustomError "ReentrancyGuardReentrantCall")
  | NOT_ENTERED =>
      Tx.modify (set_status ENTERED);;
      a <- body;
      Tx.modify (set_status NOT_ENTERED);;
      Tx.ret a
  end.

(** Lines 65-72, the body of [release] under the modifier. *)
Definition release_body (block_timestamp : N) : tx T unit :=
  amount_to_release <- Tx.lift (releasable_amount block_timestamp);
  Tx.lift (fun _ => require (0 <? amount_to_release)
                            "TokenVesting: no tokens are due");;
  r <- Tx.lift (fun w => checked_add (released (vesting w)) amount_to_release);
  Tx.modify (set_released r);;
  b <- Tx.lift (fun w => Ok (beneficiary (vesting w)));
  ok <- token_transfer b amount_to_release;
  Tx.lift (fun _ => require ok "TokenVesting: token transfer failed").

(** Lines 64-73. *)
Definition release (block_timestamp : N) : tx T unit :=
  nonReentrant (release_body block_timestamp).

End Release.

(** ** Construction *)

Section Constructor.

(** The constructor of the base contract [Ownable] (imported at line 5);
    it runs before the body of the derived constructor and yields the
    initial [_owner]. *)
Variable Ownable_constructor : address -> result address.

Local Open Scope sol_scope.

(** Lines 33-52.  [self] is the address the instance is created at and
    [block_timestamp] the time of the creating transaction. *)
Definition constructor (self : address) (block_timestamp : N)
    (_token_address _beneficiary : address)
    (_start_time _cliff_duration _duration : N)
    (_initial_owner : address) : result TokenVesting :=
  owner <- Ownable_constructor _initial_owner;
  require (negb (_token_address =? 0))
          "TokenVesting: token address cannot be zero";;
  require (negb (_beneficiary =? 0))
          "TokenVesting: beneficiary cannot be zero";;
  require (0 <? _duration) "TokenVesting: duration must be > 0";;
  require (_cliff_duration <=? _duration)
          "TokenVesting: cliff must be <= duration";;
  require (block_timestamp <=? _start_time)
          "TokenVesting: start time must be >= current time";;
  Ok {| this := self; token := _token_address; beneficiary := _beneficiary;
        start_time := _start_time; cliff_duration := _cliff_duration;
        duration := _duration; released := 0;
        _owner := owner; _status := NOT_ENTERED |}.

End Constructor.

(** Modelled from the spec: the constructor of OpenZeppelin's [Ownable],
    whose source is not part of this repository.  The spec has every
    address-typed field non-zero and says that the deployed contract itself
    re-checks these constraints at construction time; for the owner that
    check is the base constructor's, which rejects [address(0)] and
    otherwise records the owner. *)
Definition Ownable_nonzero (initialOwner : address) : result address :=
  if initialOwner =? 0 then Revert (CustomError "OwnableInvalidOwner")
  else Ok initialOwner.

(** ** Two tokens behind the interface

    The contract is written against [IERC20] only.  The two implementations
    below are the tokens the statements are exercised on: one in the
    style of OpenZeppelin's [ERC20], which reverts when a transfer cannot
    be made, and one that can be paused and then reports the failure
    through the returned boolean. *)

Record ERC20 := { _balances : gmap address N }.

Definition ERC20_balanceOf (t : ERC20) (account : address) : N :=
  default 0 (_balances t !! account).

Definition ERC20_transfer (t : ERC20) (sender to : address) (value : N)
    : call_outcome ERC20 :=
  if sender =? 0 then Reverted
  else if to =? 0 then Reverted
  else
    let fromBalance := ERC20_balanceOf t sender in
    if fromBalance <? value then Reverted
    else
      let debited := <[sender := fromBalance - value]> (_balances t) in
      let credited := <[to := default 0 (debited !! to) + value]> debited in
      Returned true {| _balances := credited |}.

#[export] Instance ERC20_token : IERC20 ERC20 :=
  {| balanceOf := ERC20_balanceOf; transfer := ERC20_transfer |}.

Record PausableToken := { paused : bool; ledger : ERC20 }.

Definition PausableToken_transfer (t : PausableToken) (sender to : address)
    (value : N) : call_outcome PausableToken :=
  if paused t then Returned false t
  else
    match ERC20_transfer (ledger t) sender to value with
    | Returned ok l => Returned ok {| paused := false; ledger := l |}
    | Reverted => Reverted
    end.

#[export] Instance Pausable_token : IERC20 PausableToken :=
  {| balanceOf := fun t => ERC20_balanceOf (ledger t);
     transfer := PausableToken_transfer |}.

(** ** The submit handler of the form *)

Module Frontend.

(** The JavaScript numbers the handler produces: [NaN] or an integer.  The
    integers are exact as long as they are safe integers (below 2^53). *)
Inductive number :=
| NaN
| Int (z : Z).

Definition MAX_SAFE_INTEGER : N := Eval vm_compute in 2 ^ 53 - 1.

(** The values of the [params] object. *)
Inductive value :=
| VString (s : string)
| VNumber (n : number).

(** Lines 5-12. *)
Record VestingFormData := {
  tokenAddress : string;
  beneficiaryAddress : string;
  startTime : string;
  cliffDurationSeconds : string;
  totalVestingSeconds : string;
  initialOwnerAddress : string
}.

(** The object built at lines 40-51. *)
Record Payload := {
  contract : string;
  params : gmap string value
}.

(** *** [parseInt(s, 10)] of ECMAScript, on strings of ASCII characters *)

Definition is_white_space (c : ascii) : bool :=
  let n := N_of_ascii c in
  (n =? 9) || (n =? 10) || (n =? 11) || (n =? 12) || (n =? 13) || (n =? 32).

Fixpoint trim_start (s : string) : string :=
  match s with
  | String c s' => if is_white_space c then trim_start s' else s
  | EmptyString => s
  end.

Definition digit_value (c : ascii) : option N :=
  let n := N_of_ascii c in
  if (48 <=? n) && (n <=? 57) then Some (n - 48) else None.

(** The longest prefix of decimal digits, read as a number; [acc] is [None]
    until a digit has been seen. *)
Fixpoint parse_digits (s : string) (acc : option N) : option N :=
  match s with
  | String c s' =>
      match digit_value c with
      | Some d => parse_digits s' (Some (10 * default 0 acc + d))
      | None => acc
      end
  | EmptyString => acc
  end.

Definition parseInt10 (s : string) : number :=
  let trimmed := trim_start s in
  let '(sign, digits) :=
    match trimmed with
    | String "-" rest => ((-1)%Z, rest)
    | String "+" rest => (1%Z, rest)
    | _ => (1%Z, trimmed)
    end in
  match parse_digits digits None with
  | Some m => Int (sign * Z.of_N m)
  | None => NaN
  end.

(** [Math.floor(ms / 1000)] on a time in milliseconds. *)
Definition unix_seconds (ms : number) : number :=
  match ms with
  | Int z => Int (z / 1000)
  | NaN => NaN
  end.

(** The decimal numeral of a number, as a user types it. *)
Definition numeral (n : N) : string :=
  NilEmpty.string_of_uint (N.to_uint n).

Section Handler.

(** The clock and the date parser of the browser:
    [new Date(s).getTime()] is a number of milliseconds or [NaN], and
    [Date.now()] a number of milliseconds. *)
Variable Date_getTime : string -> number.
Variable Date_now : Z.

(** Lines 40-51. *)
Definition handleSubmit_payload (formData : VestingFormData) : Payload :=
  {| contract := "TokenVesting";
     params :=
       <["token_address" := VString (tokenAddress formData)]> (
       <["beneficiary" := VString (beneficiaryAddress formData)]> (
       <["start_time" :=
           VNumber (if String.eqb (startTime formData) EmptyString
                    then unix_seconds (Int Date_now)
                    else unix_seconds (Date_getTime (startTime formData)))]> (
       <["cliff_duration" :=
           VNumber (parseInt10 (cliffDurationSeconds formData))]> (
       <["duration" :=
           VNumber (parseInt10 (totalVestingSeconds formData))]> (
       <["initial_owner" := VString (initialOwnerAddress formData)]> ∅))))) |}.

(** A filled form: a start time the browser parses to [ms] milliseconds,
    and the two durations written as the decimal numerals of [cliff] and
    [total], both safe integers. *)
Definition filled (formData : VestingFormData) (ms : Z) (cliff total : N)
    : Prop :=
  startTime formData <> EmptyString /\
  Date_getTime (startTime formData) = Int ms /\
  cliffDurationSeconds formData = numeral cliff /\
  cliff <= MAX_SAFE_INTEGER /\
  totalVestingSeconds formData = numeral total /\
  total <= MAX_SAFE_INTEGER.

End Handler.

(** A filled form, for the concrete runs. *)
Definition sample_form : VestingFormData :=
  {| tokenAddress := "0x1111111111111111111111111111111111111111";
     beneficiaryAddress := "0x2222222222222222222222222222222222222222";
     startTime := "2027-01-01T00:00";
     cliffDurationSeconds := "2592000";
     totalVestingSeconds := "31536000";
     initialOwnerAddress := "0x3333333333333333333333333333333333333333" |}.

(** A parser that reads the sample date as 2027-01-01T00:00Z. *)
Definition sample_getTime (s : string) : number :=
  if String.eqb s "2027-01-01T00:00" then Int 1798761600000 else NaN.

End Frontend.

(** ** Predicates used in the statements *)

(** The constraints the constructor puts on the schedule. *)
Definition well_formed (c : TokenVesting) : Prop :=
  cliff_duration c <= duration c /\ 0 < duration c.

(** No checked operation of [_vested_amount] can overflow, whatever the
    timestamp: the end of the schedule and the largest product of the
    linear part fit in 256 bits. *)
Definition schedule_fits {T} `{IERC20 T} (w : world T) : Prop :=
  start_time (vesting w) + duration (vesting w) <= MAX_UINT256 /\
  total_ever_held w * duration (vesting w) <= MAX_UINT256.

(** The call [token.transfer] did not return [true]. *)
Definition transfer_fails {T} (o : call_outcome T) : Prop :=
  match o with
  | Returned true _ => False
  | Returned false _ => True
  | Reverted => True
  end.

(** ** Sample states *)

(** A schedule starting at 1000 with a cliff of 10 and a duration of 100,
    deployed at address 100 for the beneficiary 200; address 300 is another
    holder of the token. *)
Definition sample_vesting (already_released : N) : TokenVesting :=
  {| this := 100; token := 7; beneficiary := 200;
     start_time := 1000; cliff_duration := 10; duration := 100;
     released := already_released; _owner := 1; _status := NOT_ENTERED |}.

Definition sample_world (balance already_released : N) : world ERC20 :=
  {| erc20 := {| _balances := <[100 := balance]> {[ 300 := 1000000 ]} |};
     vesting := sample_vesting already_released |}.

(** A schedule the constructor accepts whose end, [start_time + duration],
    is beyond the last [uint256]. *)
Definition late_world (balance : N) : world ERC20 :=
  {| erc20 := {| _balances := {[ 100 := balance ]} |};
     vesting :=
       {| this := 100; token := 7; beneficiary := 200;
          start_time := MAX_UINT256; cliff_duration := 0; duration := 1;
          released := 0; _owner := 1; _status := NOT_ENTERED |} |}.

(** The same schedule on a token that is paused. *)
Definition paused_world (balance : N) : world PausableToken :=
  {| erc20 := {| paused := true;
                 ledger := {| _balances := {[ 100 := balance ]} |} |};
     vesting := sample_vesting 0 |}.

(** A holder at address 300 deposits [value] more tokens into the vesting
    contract. *)
Definition deposit (value : N) (w : world ERC20) : world ERC20 :=
  match ERC20_transfer (erc20 w) 300 (this (vesting w)) value with
  | Returned _ tok' => {| erc20 := tok'; vesting := vesting w |}
  | Reverted => w
  end.

(** A successful [token.transfer] from the vesting contract to the
    beneficiary takes exactly the transferred amount from the contract's
    balance. *)
Definition debits_exactly {T} `{IERC20 T} (w : world T) : Prop :=
  forall amount tok',
    transfer (erc20 w) (this (vesting w)) (beneficiary (vesting w)) amount
    = Returned true tok' ->
    balanceOf tok' (this (vesting w)) + amount
    = balanceOf (erc20 w) (this (vesting w)).

(** A schedule the constructor accepts whose cliff ends beyond the last
    [uint256]. *)
Definition locked_world (balance : N) : world ERC20 :=
  {| erc20 := {| _balances := {[ 100 := balance ]} |};
     vesting :=
       {| this := 100; token := 7; beneficiary := 200;
          start_time := MAX_UINT256; cliff_duration := 1; duration := 1;
          released := 0; _owner := 1; _status := NOT_ENTERED |} |}.

(** ** The page around the handler *)

Module Page.
Import Frontend.

(** The form state as the JavaScript object it is: the initial object of
    lines 15-22. *)
Definition initial_formData : gmap string string :=
  <["tokenAddress" := "0xTokenAddressHere"]> (
  <["beneficiaryAddress" := "0xBeneficiaryAddressHere"]> (
  <["startTime" := EmptyString]> (
  <["cliffDurationSeconds" := "2592000"]> (
  <["totalVestingSeconds" := "31536000"]> (
  <["initialOwnerAddress" := "0xInitialOwnerAddressHere"]> ∅))))).

(** Lines 26-29: [setFormData(prev => ({ ...prev, [name]: value }))], for
    the [name] and [value] of the input that changed. *)
Definition handleChange (name value : string) (prev : gmap string string)
    : gmap string string :=
  <[name := value]> prev.

(** The six properties [handleSubmit] reads from the object; [None] when
    one of them is undefined. *)
Definition read_form (o : gmap string string) : option VestingFormData :=
  match o !! "tokenAddress", o !! "beneficiaryAddress", o !! "startTime",
        o !! "cliffDurationSeconds", o !! "totalVestingSeconds",
        o !! "initialOwnerAddress" with
  | Some t, Some b, Some s, Some c, Some d, Some i =>
      Some {| tokenAddress := t; beneficiaryAddress := b; startTime := s;
              cliffDurationSeconds := c; totalVestingSeconds := d;
              initialOwnerAddress := i |}
  | _, _, _, _, _, _ => None
  end.

(** The typed record with the field called [name] replaced; other names
    are not fields of the record. *)
Definition with_field (name value : string) (fd : VestingFormData)
    : VestingFormData :=
  {| tokenAddress :=
       if String.eqb name "tokenAddress" then value else tokenAddress fd;
     beneficiaryAddress :=
       if String.eqb name "beneficiaryAddress" then value
       else beneficiaryAddress fd;
     startTime :=
       if String.eqb name "startTime" then value else startTime fd;
     cliffDurationSeconds :=
       if String.eqb name "cliffDurationSeconds" then value
       else cliffDurationSeconds fd;
     totalVestingSeconds :=
       if String.eqb name "totalVestingSeconds" then value
       else totalVestingSeconds fd;
     initialOwnerAddress :=
       if String.eqb name "initialOwnerAddress" then value
       else initialOwnerAddress fd |}.

(** The body of the backend's answer, as the page uses it: [success] is
    the truthiness of that property and [message] is [None] when the
    property is absent. *)
Record DeployResult := {
  success : bool;
  message : option string;
  contract_address : string;
  abi : string
}.

(** How the request of lines 57-68 ends: an awaited promise rejects with an
    error message, the response is not [ok], or the body parses to a
    result. *)
Inductive response :=
| Rejected (error_message : string)
| HttpError (status : N) (errorData : string)
| Json (result : DeployResult).

(** The two state variables of lines 23-24. *)
Record SubmitState := {
  submissionResult : option string;
  deployedContractInfo : option DeployResult
}.

(** [m || fallback] on a string that may be undefined: the empty string is
    falsy as well. *)
Definition or_else (m : option string) (fallback : string) : string :=
  match m with
  | Some s => if String.eqb s EmptyString then fallback else s
  | None => fallback
  end.

(** Lines 33-34: the state while the request is under way. *)
Definition handleSubmit_start : SubmitState :=
  {| submissionResult := Some "Submitting...";
     deployedContractInfo := None |}.

(** Lines 63-81: the state once the request has ended. *)
Definition handleSubmit_settle (r : response) : SubmitState :=
  match r with
  | Json result =>
      if success result then
        {| submissionResult :=
             Some ("Deployment successful: "
                   +:+ or_else (message result) "See details below.");
           deployedContractInfo := Some result |}
      else
        {| submissionResult :=
             Some ("Deployment failed: "
                   +:+ or_else (message result) "Unknown error.");
           deployedContractInfo := None |}
  | HttpError status errorData =>
      {| submissionResult :=
           Some ("Error: "
                 +:+ ("HTTP error " +:+ numeral status +:+ ": " +:+ errorData));
         deployedContractInfo := None |}
  | Rejected error_message =>
      {| submissionResult := Some ("Error: " +:+ error_message);
         deployedContractInfo := None |}
  end.

(** Line 182: the status box is rendered when [submissionResult] is
    truthy. *)
Definition shows_status (st : SubmitState) : bool :=
  match submissionResult st with
  | Some s => negb (String.eqb s EmptyString)
  | None => false
  end.

(** Line 186: the contract details are rendered inside the status box when
    [deployedContractInfo && deployedContractInfo.success]. *)
Definition shows_contract_details (st : SubmitState) : bool :=
  shows_status st &&
  match deployedContractInfo st with
  | Some d => success d
  | None => false
  end.

End Page.

(** * Properties *)

(** ** Checked arithmetic *)

Lemma checked_add_Ok a b c :
  checked_add a b = Ok c <-> a + b <= MAX_UINT256 /\ c = a + b.
Proof.
  unfold checked_add. destruct (N.leb_spec (a + b) MAX_UINT256); split.
  - intros [= <-]. auto.
  - intros [_ ->]. reflexivity.
  - discriminate.
  - intros [Hle _]. lia.
Qed.

Lemma checked_add_fits a b :
  a + b <= MAX_UINT256 -> checked_add a b = Ok (a + b).
Proof. intros. apply checked_add_Ok. auto. Qed.

Lemma checked_sub_Ok a b c :
  checked_sub a b = Ok c <-> b <= a /\ c = a - b.
Proof.
  unfold checked_sub. destruct (N.leb_spec b a); split.
  - intros [= <-]. auto.
  - intros [_ ->]. reflexivity.
  - discriminate.
  - intros [Hle _]. lia.
Qed.

Lemma checked_mul_Ok a b c :
  checked_mul a b = Ok c <-> a * b <= MAX_UINT256 /\ c = a * b.
Proof.
  unfold checked_mul. destruct (N.leb_spec (a * b) MAX_UINT256); split.
  - intros [= <-]. auto.
  - intros [_ ->]. reflexivity.
  - discriminate.
  - intros [Hle _]. lia.
Qed.

Lemma checked_div_Ok a b c :
  checked_div a b = Ok c <-> b <> 0 /\ c = a / b.
Proof.
  unfold checked_div. destruct (N.eqb_spec b 0); split.
  - discriminate.
  - intros [Hne _]. contradiction.
  - intros [= <-]. auto.
  - intros [_ ->]. reflexivity.
Qed.

Lemma bind_Ok {A B} (r : result A) (k : A -> result B) b :
  bind r k = Ok b <-> exists a, r = Ok a /\ k a = Ok b.
Proof.
  destruct r as [a | f]; simpl; split.
  - eauto.
  - intros (a' & [= <-] & Hk). exact Hk.
  - discriminate.
  - intros (a' & Habs & _). discriminate.
Qed.

(** ** The vesting schedule *)

Section Schedule.
Context {T : Type} `{IERC20 T}.

(** The linear part never pays more than the total: the elapsed time is
    below the duration there. *)
Lemma linear_part_le_total total elapsed d :
  elapsed <= d -> d <> 0 -> total * elapsed / d <= total.
Proof.
  intros Hle Hd.
  transitivity (total * d / d).
  - apply N.Div0.div_le_mono. apply N.mul_le_mono_l. exact Hle.
  - rewrite N.div_mul by exact Hd. reflexivity.
Qed.

(** What a returning call of [_vested_amount] has computed. *)
Lemma vested_amount_Ok w t v :
  _vested_amount w t = Ok v ->
  let c := vesting w in
  total_ever_held w <= MAX_UINT256 /\
  start_time c + cliff_duration c <= MAX_UINT256 /\
  ((t < start_time c + cliff_duration c /\ v = 0) \/
   (start_time c + cliff_duration c <= t /\
    start_time c + duration c <= MAX_UINT256 /\
    ((start_time c + duration c <= t /\ v = total_ever_held w) \/
     (t < start_time c + duration c /\
      total_ever_held w * (t - start_time c) <= MAX_UINT256 /\
      duration c <> 0 /\
      v = total_ever_held w * (t - start_time c) / duration c)))).
Proof.
  unfold _vested_amount, total_ever_held. cbv zeta.
  intros Hv.
  apply bind_Ok in Hv as (total & Htotal & Hv).
  apply checked_add_Ok in Htotal as [Hfit ->].
  apply bind_Ok in Hv as (cliff_end & Hcliff & Hv).
  apply checked_add_Ok in Hcliff as [Hcfit ->].
  split; [exact Hfit | split; [exact Hcfit |]].
  destruct (N.ltb_spec t (start_time (vesting w) + cliff_duration (vesting w))).
  { left. injection Hv as <-. auto. }
  right. split; [assumption |].
  apply bind_Ok in Hv as (vesting_end & Hend & Hv).
  apply checked_add_Ok in Hend as [Hefit ->].
  split; [exact Hefit |].
  destruct (N.leb_spec (start_time (vesting w) + duration (vesting w)) t).
  { left. injection Hv as <-. auto. }
  right. split; [assumption |].
  apply bind_Ok in Hv as (time_passed & Hsub & Hv).
  apply checked_sub_Ok in Hsub as [_ ->].
  apply bind_Ok in Hv as (product & Hmul & Hv).
  apply checked_mul_Ok in Hmul as [Hpfit ->].
  apply checked_div_Ok in Hv as [Hd ->].
  auto.
Qed.

(** The three segments, when the sums of the source fit in 256 bits. *)
Lemma vested_amount_before_cliff w t :
  let c := vesting w in
  total_ever_held w <= MAX_UINT256 ->
  start_time c + cliff_duration c <= MAX_UINT256 ->
  t < start_time c + cliff_duration c ->
  _vested_amount w t = Ok 0.
Proof.
  cbv zeta. unfold _vested_amount, total_ever_held. intros Htot Hcliff Hlt.
  rewrite checked_add_fits by exact Htot. simpl.
  rewrite checked_add_fits by exact Hcliff. simpl.
  destruct (N.ltb_spec t (start_time (vesting w) + cliff_duration (vesting w)));
    [reflexivity | lia].
Qed.

Lemma vested_amount_after_end w t :
  let c := vesting w in
  total_ever_held w <= MAX_UINT256 ->
  cliff_duration c <= duration c ->
  start_time c + duration c <= MAX_UINT256 ->
  start_time c + duration c <= t ->
  _vested_amount w t = Ok (total_ever_held w).
Proof.
  cbv zeta. unfold _vested_amount, total_ever_held. intros Htot Hcd Hend Hge.
  rewrite checked_add_fits by exact Htot. simpl.
  rewrite checked_add_fits by lia. simpl.
  destruct (N.ltb_spec t (start_time (vesting w) + cliff_duration (vesting w)));
    [lia |].
  rewrite checked_add_fits by exact Hend. simpl.
  destruct (N.leb_spec (start_time (vesting w) + duration (vesting w)) t);
    [reflexivity | lia].
Qed.

Lemma vested_amount_linear w t :
  let c := vesting w in
  total_ever_held w <= MAX_UINT256 ->
  start_time c + duration c <= MAX_UINT256 ->
  duration c <> 0 ->
  start_time c + cliff_duration c <= t ->
  t < start_time c + duration c ->
  _vested_amount w t =
    if total_ever_held w * (t - start_time c) <=? MAX_UINT256
    then Ok (total_ever_held w * (t - start_time c) / duration c)
    else Revert (Panic ARITHMETIC).
Proof.
  cbv zeta. unfold _vested_amount, total_ever_held.
  intros Htot Hend Hd Hge Hlt.
  rewrite checked_add_fits by exact Htot. simpl.
  rewrite checked_add_fits by lia. simpl.
  destruct (N.ltb_spec t (start_time (vesting w) + cliff_duration (vesting w)));
    [lia |].
  rewrite checked_add_fits by exact Hend. simpl.
  destruct (N.leb_spec (start_time (vesting w) + duration (vesting w)) t);
    [lia |].
  unfold checked_sub.
  destruct (N.leb_spec (start_time (vesting w)) t); [| lia]. simpl.
  unfold checked_mul.
  destruct (N.leb_spec
              ((balanceOf (erc20 w) (this (vesting w)) + released (vesting w))
               * (t - start_time (vesting w))) MAX_UINT256); simpl.
  - unfold checked_div. destruct (N.eqb_spec (duration (vesting w)) 0);
      [contradiction | reflexivity].
  - reflexivity.
Qed.

End Schedule.

Section ScheduleClaims.
Context {T : Type} `{IERC20 T}.

Lemma vested_amount_le_total w t v :
  _vested_amount w t = Ok v -> v <= total_ever_held w.
Proof.
  intros Hv. apply vested_amount_Ok in Hv. cbv zeta in Hv.
  destruct Hv as (_ & _ & [[_ ->] | (_ & _ & [[_ ->] | (Hlt & _ & Hd & ->)])]).
  - apply N.le_0_l.
  - reflexivity.
  - apply linear_part_le_total; [lia | exact Hd].
Qed.

Lemma schedule_fits_total w :
  well_formed (vesting w) -> schedule_fits w ->
  total_ever_held w <= MAX_UINT256.
Proof.
  intros [_ Hd] [_ Hprod].
  transitivity (total_ever_held w * duration (vesting w)); [| exact Hprod].
  rewrite <- (N.mul_1_r (total_ever_held w)) at 1.
  apply N.mul_le_mono_l. lia.
Qed.

(** With a schedule that fits, [_vested_amount] returns at every
    timestamp. *)
Lemma vested_amount_returns w t :
  well_formed (vesting w) -> schedule_fits w ->
  exists v, _vested_amount w t = Ok v.
Proof.
  intros Hwf Hfit.
  pose proof (schedule_fits_total w Hwf Hfit) as Htot.
  destruct Hwf as [Hcd Hd]. destruct Hfit as [Hend Hprod].
  destruct (N.lt_ge_cases t (start_time (vesting w) + cliff_duration (vesting w)))
    as [Hlt | Hge].
  { exists 0. apply vested_amount_before_cliff; [exact Htot | lia | exact Hlt]. }
  destruct (N.lt_ge_cases t (start_time (vesting w) + duration (vesting w)))
    as [Hlt' | Hge'].
  - eexists. rewrite vested_amount_linear by (assumption || lia).
    destruct (N.leb_spec (total_ever_held w * (t - start_time (vesting w)))
                MAX_UINT256) as [_ | Hover]; [reflexivity |].
    exfalso.
    assert (total_ever_held w * (t - start_time (vesting w))
            <= total_ever_held w * duration (vesting w))
      by (apply N.mul_le_mono_l; lia).
    lia.
  - exists (total_ever_held w). apply vested_amount_after_end; assumption.
Qed.

Lemma vested_amount_mono w t1 t2 v1 v2 :
  t1 <= t2 ->
  _vested_amount w t1 = Ok v1 -> _vested_amount w t2 = Ok v2 -> v1 <= v2.
Proof.
  intros Hle H1 H2.
  pose proof (vested_amount_le_total _ _ _ H1) as Hbound.
  apply vested_amount_Ok in H1. apply vested_amount_Ok in H2. cbv zeta in *.
  destruct H1 as (_ & _ & [[_ ->] | (Hc1 & _ & Hcase1)]); [apply N.le_0_l |].
  destruct H2 as (_ & _ & [[Hlt2 _] | (_ & _ & Hcase2)]); [lia |].
  destruct Hcase2 as [[_ ->] | (Hlt2 & _ & Hd & ->)]; [exact Hbound |].
  destruct Hcase1 as [[Hge1 _] | (_ & _ & _ & ->)]; [lia |].
  apply N.Div0.div_le_mono. apply N.mul_le_mono_l. lia.
Qed.

(** C1 (amended): the vested amount is piecewise -- 0 before the end of the
    cliff, the total ever held from the end of the schedule on, and
    [total * (t - start) / duration], rounded down, in between -- whenever
    the checked sums [balance + released] and [start_time + duration] fit in
    256 bits and, in the linear part, so does the product
    [total * (t - start)]; when that product does not fit, the call reverts
    with the arithmetic panic. *)
Theorem vested_amount_piecewise (w : world T) (t : N) :
  cliff_duration (vesting w) <= duration (vesting w) ->
  0 < duration (vesting w) ->
  total_ever_held w <= MAX_UINT256 ->
  start_time (vesting w) + duration (vesting w) <= MAX_UINT256 ->
  (t < start_time (vesting w) + cliff_duration (vesting w) ->
   _vested_amount w t = Ok 0) /\
  (start_time (vesting w) + duration (vesting w) <= t ->
   _vested_amount w t = Ok (total_ever_held w)) /\
  (start_time (vesting w) + cliff_duration (vesting w) <= t ->
   t < start_time (vesting w) + duration (vesting w) ->
   total_ever_held w * (t - start_time (vesting w)) <= MAX_UINT256 ->
   _vested_amount w t =
     Ok (total_ever_held w * (t - start_time (vesting w))
         / duration (vesting w))) /\
  (start_time (vesting w) + cliff_duration (vesting w) <= t ->
   t < start_time (vesting w) + duration (vesting w) ->
   MAX_UINT256 < total_ever_held w * (t - start_time (vesting w)) ->
   _vested_amount w t = Revert (Panic ARITHMETIC)).
Proof.
  intros Hcd Hd Htot Hend. repeat split.
  - intros Hlt. apply vested_amount_before_cliff; [exact Htot | lia | exact Hlt].
  - intros Hge. apply vested_amount_after_end; assumption.
  - intros Hge Hlt Hprod.
    rewrite vested_amount_linear by (assumption || lia).
    destruct (N.leb_spec (total_ever_held w * (t - start_time (vesting w)))
                MAX_UINT256); [reflexivity | lia].
  - intros Hge Hlt Hprod.
    rewrite vested_amount_linear by (assumption || lia).
    destruct (N.leb_spec (total_ever_held w * (t - start_time (vesting w)))
                MAX_UINT256); [lia | reflexivity].
Qed.

(** C5: for a schedule with [cliff_duration <= duration] and
    [duration > 0], the vested amount is non-decreasing in the timestamp:
    two calls at [t1 <= t2] that return, return [v1 <= v2]; and when the
    schedule fits in 256 bits both calls do return. *)
Theorem vested_amount_monotone (w : world T) (t1 t2 : N) :
  cliff_duration (vesting w) <= duration (vesting w) ->
  0 < duration (vesting w) ->
  t1 <= t2 ->
  (forall v1 v2,
     _vested_amount w t1 = Ok v1 -> _vested_amount w t2 = Ok v2 -> v1 <= v2) /\
  (schedule_fits w ->
   exists v1 v2,
     _vested_amount w t1 = Ok v1 /\ _vested_amount w t2 = Ok v2 /\ v1 <= v2).
Proof.
  intros Hcd Hd Hle. split.
  - intros v1 v2. apply vested_amount_mono. exact Hle.
  - intros Hfit.
    destruct (vested_amount_returns w t1 (conj Hcd Hd) Hfit) as [v1 H1].
    destruct (vested_amount_returns w t2 (conj Hcd Hd) Hfit) as [v2 H2].
    exists v1, v2. repeat split; try assumption.
    exact (vested_amount_mono w t1 t2 v1 v2 Hle H1 H2).
Qed.

(** C10: for a schedule with [cliff_duration <= duration] and
    [duration > 0], the vested amount never exceeds
    [token.balanceOf(address(this)) + released], as exact numbers: every
    value a call returns is bounded by it, and when the schedule fits in
    256 bits the call returns at every timestamp. *)
Theorem vested_amount_bounded (w : world T) (t : N) :
  cliff_duration (vesting w) <= duration (vesting w) ->
  0 < duration (vesting w) ->
  (forall v,
     _vested_amount w t = Ok v ->
     v <= balanceOf (erc20 w) (this (vesting w)) + released (vesting w)) /\
  (schedule_fits w ->
   exists v,
     _vested_amount w t = Ok v /\
     v <= balanceOf (erc20 w) (this (vesting w)) + released (vesting w)).
Proof.
  intros Hcd Hd. split.
  - intros v. apply vested_amount_le_total.
  - intros Hfit.
    destruct (vested_amount_returns w t (conj Hcd Hd) Hfit) as [v Hv].
    exists v. split; [exact Hv |]. exact (vested_amount_le_total w t v Hv).
Qed.

(** C6: [releasable_amount()] is the vested amount at the current time
    minus the released counter: it returns [r] exactly when
    [_vested_amount(block.timestamp)] returns some [v] with
    [r = v - released] as integers. *)
Theorem releasable_amount_is_vested_minus_released
    (w : world T) (block_timestamp r : N) :
  releasable_amount block_timestamp w = Ok r <->
  exists v,
    _vested_amount w block_timestamp = Ok v /\
    Z.of_N r = (Z.of_N v - Z.of_N (released (vesting w)))%Z.
Proof.
  unfold releasable_amount. rewrite bind_Ok. split.
  - intros (v & Hv & Hsub). exists v. split; [exact Hv |].
    apply checked_sub_Ok in Hsub as [Hle ->]. lia.
  - intros (v & Hv & Hr). exists v. split; [exact Hv |].
    apply checked_sub_Ok. split; lia.
Qed.

End ScheduleClaims.


(** ** Release *)

Section ReleaseClaims.
Context {T : Type} `{IERC20 T}.

Lemma set_status_round_trip r c :
  _status c = NOT_ENTERED ->
  set_status NOT_ENTERED (set_released r (set_status ENTERED c))
  = set_released r c.
Proof. destruct c; simpl; intros ->; reflexivity. Qed.

(** A call made while the guard is entered is refused at once. *)
Lemma release_entered (w : world T) now :
  _status (vesting w) = ENTERED ->
  release now w = (Revert (CustomError "ReentrancyGuardReentrantCall"), w).
Proof.
  intros Hs. unfold release, nonReentrant, Tx.bind, Tx.lift, Tx.revert.
  rewrite Hs. reflexivity.
Qed.

(** The run of [release] from a state in which the guard is not entered,
    with the state the body has reached at each exit. *)
Lemma release_run (w : world T) now :
  _status (vesting w) = NOT_ENTERED ->
  release now w =
    let entered := Build_world (erc20 w) (set_status ENTERED (vesting w)) in
    match releasable_amount now w with
    | Revert f => (Revert f, entered)
    | Ok amount =>
        if 0 <? amount then
          match checked_add (released (vesting w)) amount with
          | Revert f => (Revert f, entered)
          | Ok r =>
              let advanced := set_released r (set_status ENTERED (vesting w)) in
              match transfer (erc20 w) (this (vesting w))
                             (beneficiary (vesting w)) amount with
              | Reverted =>
                  (Revert ExternalRevert, Build_world (erc20 w) advanced)
              | Returned false tok' =>
                  (Revert (Error "TokenVesting: token transfer failed"),
                   Build_world tok' advanced)
              | Returned true tok' =>
                  (Ok tt, Build_world tok' (set_released r (vesting w)))
              end
          end
        else (Revert (Error "TokenVesting: no tokens are due"), entered)
    end.
Proof.
  intros Hs. cbv zeta.
  unfold release, nonReentrant, release_body, token_transfer,
    Tx.bind, Tx.lift, Tx.modify, Tx.ret, Tx.revert.
  rewrite Hs. cbn [fst snd erc20 vesting].
  change (releasable_amount now
            (Build_world (erc20 w) (set_status ENTERED (vesting w))))
    with (releasable_amount now w).
  destruct (releasable_amount now w) as [amount | f]; [| reflexivity].
  destruct (0 <? amount); simpl; [| reflexivity].
  destruct (checked_add (released (vesting w)) amount) as [r | f]; simpl;
    [| reflexivity].
  destruct (transfer (erc20 w) (this (vesting w)) (beneficiary (vesting w))
              amount) as [[|] tok' |]; simpl; try reflexivity.
  rewrite set_status_round_trip by exact Hs. reflexivity.
Qed.

(** The counter can always take the releasable amount: their sum is the
    vested amount. *)
Lemma released_plus_releasable (w : world T) now amount :
  releasable_amount now w = Ok amount ->
  checked_add (released (vesting w)) amount
  = Ok (released (vesting w) + amount).
Proof.
  intros Hr. unfold releasable_amount in Hr.
  apply bind_Ok in Hr as (v & Hv & Hsub).
  apply checked_sub_Ok in Hsub as [Hle ->].
  pose proof (vested_amount_le_total w now v Hv) as Hbound.
  apply vested_amount_Ok in Hv as (Htot & _).
  apply checked_add_fits. lia.
Qed.


(** When the transfer reports failure, the body had already advanced the
    counter: it is the revert that takes the update back. *)
Lemma release_body_had_advanced (w : world T) now amount tok' :
  _status (vesting w) = NOT_ENTERED ->
  releasable_amount now w = Ok amount ->
  0 < amount ->
  transfer (erc20 w) (this (vesting w)) (beneficiary (vesting w)) amount
  = Returned false tok' ->
  released (vesting (snd (release now w))) = released (vesting w) + amount.
Proof.
  intros Hs Hr Hpos Htr. rewrite release_run by exact Hs. cbv zeta.
  rewrite Hr, (released_plus_releasable w now amount Hr), Htr.
  destruct (N.ltb_spec 0 amount); [reflexivity | lia].
Qed.

(** C3: [release()] is atomic on failure: when the call reaches the
    transfer to the beneficiary and the transfer fails (it reverts or
    returns [false]), [release()] reverts and the state after the call --
    the released counter with it -- is the state before the call. *)
Theorem release_atomic_on_transfer_failure (w : world T) (now amount : N) :
  _status (vesting w) = NOT_ENTERED ->
  releasable_amount now w = Ok amount ->
  0 < amount ->
  transfer_fails (transfer (erc20 w) (this (vesting w))
                           (beneficiary (vesting w)) amount) ->
  exists f, transact (release now) w = (Revert f, w).
Proof.
  intros Hs Hr Hpos Hfail. unfold transact.
  rewrite release_run by exact Hs. cbv zeta.
  rewrite Hr, (released_plus_releasable w now amount Hr).
  destruct (N.ltb_spec 0 amount); [| lia].
  destruct (transfer (erc20 w) (this (vesting w)) (beneficiary (vesting w))
              amount) as [[|] tok' |]; simpl in Hfail.
  - contradiction.
  - eexists. reflexivity.
  - eexists. reflexivity.
Qed.

(** C4 (amended): with the guard not entered, [release()] fails when
    [releasable_amount()] is 0 or reverts; when [releasable_amount()] is a
    positive amount, [release()] succeeds exactly when
    [token.transfer(beneficiary, amount)] returns [true], and then the state
    is the one in which [released] has grown by exactly that amount and the
    token is as that transfer left it. *)
Theorem release_succeeds_iff_transfer (w : world T) (now : N) :
  _status (vesting w) = NOT_ENTERED ->
  (releasable_amount now w = Ok 0 ->
   transact (release now) w
   = (Revert (Error "TokenVesting: no tokens are due"), w)) /\
  (forall f, releasable_amount now w = Revert f ->
   transact (release now) w = (Revert f, w)) /\
  (forall amount, releasable_amount now w = Ok amount -> 0 < amount ->
   forall w',
     transact (release now) w = (Ok tt, w') <->
     exists tok',
       transfer (erc20 w) (this (vesting w)) (beneficiary (vesting w)) amount
       = Returned true tok' /\
       w' = Build_world tok'
              (set_released (released (vesting w) + amount) (vesting w))).
Proof.
  intros Hs. unfold transact. rewrite release_run by exact Hs. cbv zeta.
  split; [| split].
  - intros ->. reflexivity.
  - intros f ->. reflexivity.
  - intros amount Hr Hpos w'.
    rewrite Hr, (released_plus_releasable w now amount Hr).
    destruct (N.ltb_spec 0 amount); [| lia].
    destruct (transfer (erc20 w) (this (vesting w)) (beneficiary (vesting w))
                amount) as [[|] tok' |]; split.
    + intros [= <-]. exists tok'. auto.
    + intros (tok'' & [= <-] & ->). reflexivity.
    + discriminate.
    + intros (tok'' & Habs & _). discriminate.
    + discriminate.
    + intros (tok'' & Habs & _). discriminate.
Qed.

Lemma checked_add_same_sum a b c d :
  a + b = c + d -> checked_add a b = checked_add c d.
Proof. unfold checked_add. intros ->. reflexivity. Qed.

(** [_vested_amount] reads the token and the counter only through their
    sum. *)
Lemma vested_amount_same_total (w w' : world T) r t :
  vesting w' = set_released r (vesting w) ->
  total_ever_held w' = total_ever_held w ->
  _vested_amount w' t = _vested_amount w t.
Proof.
  unfold total_ever_held, _vested_amount. cbv zeta. intros -> Htot.
  simpl in *. rewrite (checked_add_same_sum _ _ _ _ Htot). reflexivity.
Qed.

(** C9: a successful [release()] preserves
    [token.balanceOf(address(this)) + released], provided the transfer takes
    exactly the requested amount from the contract's balance; hence the
    vested amount at any fixed timestamp is the same after the call. *)
Theorem release_preserves_total (w w' : world T) (now : N) :
  (forall amount tok',
     transfer (erc20 w) (this (vesting w)) (beneficiary (vesting w)) amount
     = Returned true tok' ->
     balanceOf tok' (this (vesting w)) + amount
     = balanceOf (erc20 w) (this (vesting w))) ->
  transact (release now) w = (Ok tt, w') ->
  balanceOf (erc20 w') (this (vesting w')) + released (vesting w')
  = balanceOf (erc20 w) (this (vesting w)) + released (vesting w) /\
  (forall t, _vested_amount w' t = _vested_amount w t).
Proof.
  intros Hexact Hrel.
  destruct (_status (vesting w)) eqn:Hs.
  2: { unfold transact in Hrel. rewrite release_entered in Hrel by exact Hs.
       discriminate. }
  unfold transact in Hrel. rewrite release_run in Hrel by exact Hs.
  cbv zeta in Hrel.
  destruct (releasable_amount now w) as [amount | f] eqn:Hr;
    [| discriminate].
  destruct (N.eq_0_gt_0_cases amount) as [-> | Hpos]; [discriminate |].
  rewrite (released_plus_releasable w now amount Hr) in Hrel.
  destruct (N.ltb_spec 0 amount); [| lia].
  destruct (transfer (erc20 w) (this (vesting w)) (beneficiary (vesting w))
              amount) as [[|] tok' |] eqn:Htr; try discriminate.
  injection Hrel as <-.
  specialize (Hexact amount tok' Htr).
  assert (Htot : total_ever_held
                   (Build_world tok'
                      (set_released (released (vesting w) + amount) (vesting w)))
                 = total_ever_held w).
  { unfold total_ever_held. simpl. lia. }
  split.
  - exact Htot.
  - intros t. eapply vested_amount_same_total; [reflexivity | exact Htot].
Qed.

End ReleaseClaims.

(** ** Deposits *)

Section DepositClaims.
Context {T : Type} `{IERC20 T}.

Lemma div_add_lower a b c : c <> 0 -> a / c + b / c <= (a + b) / c.
Proof.
  intros Hc. apply N.div_le_lower_bound; [exact Hc |].
  pose proof (N.Div0.mul_div_le a c). pose proof (N.Div0.mul_div_le b c).
  lia.
Qed.

(** C7 (amended): [_vested_amount] takes the total from the current token
    balance plus [released], not from a grant fixed at construction, so a
    deposit of [d] tokens never lowers the vested amount at any timestamp:
    before the end of the cliff the amount stays 0, from the end of the
    schedule on it is the current total and so grows by exactly [d], and in
    between it grows by at least [d * (t - start) / duration] rounded
    down. *)
Theorem deposit_never_lowers_vested (w w' : world T) (d t v v' : N) :
  vesting w' = vesting w ->
  balanceOf (erc20 w') (this (vesting w))
  = balanceOf (erc20 w) (this (vesting w)) + d ->
  _vested_amount w t = Ok v ->
  _vested_amount w' t = Ok v' ->
  v <= v' /\
  (t < start_time (vesting w) + cliff_duration (vesting w) ->
   v = 0 /\ v' = 0) /\
  (start_time (vesting w) + cliff_duration (vesting w) <= t ->
   start_time (vesting w) + duration (vesting w) <= t ->
   v = balanceOf (erc20 w) (this (vesting w)) + released (vesting w) /\
   v' = v + d) /\
  (start_time (vesting w) + cliff_duration (vesting w) <= t ->
   t < start_time (vesting w) + duration (vesting w) ->
   v + d * (t - start_time (vesting w)) / duration (vesting w) <= v').
Proof.
  intros Hsame Hbal Hv Hv'.
  assert (Htot : total_ever_held w' = total_ever_held w + d).
  { unfold total_ever_held. rewrite Hsame, Hbal. lia. }
  apply vested_amount_Ok in Hv. apply vested_amount_Ok in Hv'.
  cbv zeta in Hv, Hv'. rewrite Hsame, Htot in Hv'.
  unfold total_ever_held in *.
  destruct Hv as (_ & _ & [[Hlt ->] | (Hge & _ & Hcase)]).
  { destruct Hv' as (_ & _ & [[_ ->] | (Hge' & _)]); [| lia].
    repeat split; intros; try split; lia. }
  destruct Hv' as (_ & _ & [[Hlt' _] | (_ & _ & Hcase')]); [lia |].
  destruct Hcase as [[Hend ->] | (Hmid & _ & Hd & ->)];
    destruct Hcase' as [[Hend' ->] | (Hmid' & _ & _ & ->)]; try lia.
  assert (Hsum :
      (balanceOf (erc20 w) (this (vesting w)) + released (vesting w))
        * (t - start_time (vesting w)) / duration (vesting w)
      + d * (t - start_time (vesting w)) / duration (vesting w)
      <= (balanceOf (erc20 w) (this (vesting w)) + released (vesting w) + d)
           * (t - start_time (vesting w)) / duration (vesting w)).
  { rewrite (N.mul_add_distr_r _ d). apply div_add_lower. exact Hd. }
  split; [etransitivity; [apply N.le_add_r | exact Hsum] |].
  split; [intros; lia |].
  split; [intros; lia | intros; exact Hsum].
Qed.

End DepositClaims.

(** ** Construction *)

(** C2 (amended): the constructor succeeds exactly when the constructor of
    the base contract [Ownable] accepts the initial owner and the five
    constraints hold -- token address non-zero, beneficiary non-zero,
    [duration > 0], [cliff_duration <= duration], [start_time] not before
    the current time -- and reverts otherwise; on success the five
    immutables are the supplied arguments, [released] is 0 and the owner is
    the one the base constructor recorded. *)
Theorem constructor_succeeds_iff
    (Ownable_constructor : address -> result address)
    (self block_timestamp _token_address _beneficiary : N)
    (_start_time _cliff_duration _duration _initial_owner : N) :
  (forall c,
     constructor Ownable_constructor self block_timestamp _token_address
       _beneficiary _start_time _cliff_duration _duration _initial_owner = Ok c
     <->
     exists owner,
       Ownable_constructor _initial_owner = Ok owner /\
       _token_address <> 0 /\ _beneficiary <> 0 /\
       0 < _duration /\ _cliff_duration <= _duration /\
       block_timestamp <= _start_time /\
       c = {| this := self; token := _token_address;
              beneficiary := _beneficiary; start_time := _start_time;
              cliff_duration := _cliff_duration; duration := _duration;
              released := 0; _owner := owner; _status := NOT_ENTERED |}) /\
  ((exists f,
      constructor Ownable_constructor self block_timestamp _token_address
        _beneficiary _start_time _cliff_duration _duration _initial_owner
      = Revert f)
   <->
   ~ (exists owner,
        Ownable_constructor _initial_owner = Ok owner /\
        _token_address <> 0 /\ _beneficiary <> 0 /\
        0 < _duration /\ _cliff_duration <= _duration /\
        block_timestamp <= _start_time)).
Proof.
  assert (Hok : forall c,
    constructor Ownable_constructor self block_timestamp _token_address
      _beneficiary _start_time _cliff_duration _duration _initial_owner = Ok c
    <->
    exists owner,
      Ownable_constructor _initial_owner = Ok owner /\
      _token_address <> 0 /\ _beneficiary <> 0 /\
      0 < _duration /\ _cliff_duration <= _duration /\
      block_timestamp <= _start_time /\
      c = {| this := self; token := _token_address;
             beneficiary := _beneficiary; start_time := _start_time;
             cliff_duration := _cliff_duration; duration := _duration;
             released := 0; _owner := owner; _status := NOT_ENTERED |}).
  { intros c. unfold constructor, require.
    destruct (Ownable_constructor _initial_owner) as [owner | f]; simpl.
    2: { split; [discriminate | intros (o & Habs & _); discriminate]. }
    destruct (N.eqb_spec _token_address 0) as [Ht | Ht]; simpl.
    { split; [discriminate | intros (o & _ & Hne & _); contradiction]. }
    destruct (N.eqb_spec _beneficiary 0) as [Hb | Hb]; simpl.
    { split; [discriminate | intros (o & _ & _ & Hne & _); contradiction]. }
    destruct (N.ltb_spec 0 _duration) as [Hd | Hd]; simpl.
    2: { split; [discriminate | intros (o & _ & _ & _ & Hlt & _); lia]. }
    destruct (N.leb_spec _cliff_duration _duration) as [Hc | Hc]; simpl.
    2: { split; [discriminate | intros (o & _ & _ & _ & _ & Hle & _); lia]. }
    destruct (N.leb_spec block_timestamp _start_time) as [Hs | Hs]; simpl.
    2: { split; [discriminate
               | intros (o & _ & _ & _ & _ & _ & Hle & _); lia]. }
    split.
    - intros [= <-]. exists owner. repeat split; assumption.
    - intros (o & [= <-] & _ & _ & _ & _ & _ & ->). reflexivity. }
  split; [exact Hok |].
  destruct (constructor Ownable_constructor self block_timestamp
              _token_address _beneficiary _start_time _cliff_duration
              _duration _initial_owner) as [c | f] eqn:Hrun.
  - split.
    + intros [f Habs]. discriminate.
    + intros Hnot. exfalso. apply Hnot.
      destruct (proj1 (Hok c) eq_refl)
        as (o & Ho & Ht & Hb & Hd & Hc & Hs & _).
      exists o. repeat split; assumption.
  - split.
    + intros _ (o & Ho & Ht & Hb & Hd & Hc & Hs).
      assert (Habs : @Revert TokenVesting f = Ok
                {| this := self; token := _token_address;
                   beneficiary := _beneficiary; start_time := _start_time;
                   cliff_duration := _cliff_duration; duration := _duration;
                   released := 0; _owner := o; _status := NOT_ENTERED |}).
      { apply Hok. exists o. repeat split; assumption. }
      discriminate.
    + intros _. exists f. reflexivity.
Qed.

(** ** The submit handler *)

Module FrontendFacts.
Import Frontend.

(** Reading the digits of a decimal numeral accumulates as [Pos.of_uint_acc]
    does. *)
Lemma parse_digits_acc (d : Decimal.uint) (p : positive) :
  parse_digits (NilEmpty.string_of_uint d) (Some (Npos p))
  = Some (Npos (Pos.of_uint_acc d p)).
Proof.
  revert p. induction d; intros p; simpl; [reflexivity | ..];
    rewrite <- IHd; f_equal; f_equal; lia.
Qed.

Lemma parse_digits_zero (d : Decimal.uint) :
  parse_digits (NilEmpty.string_of_uint d) (Some 0) = Some (N.of_uint d).
Proof.
  induction d; simpl; [reflexivity | exact IHd | ..];
    apply parse_digits_acc.
Qed.

Lemma parseInt10_uint (d : Decimal.uint) :
  d <> Decimal.Nil ->
  parseInt10 (NilEmpty.string_of_uint d) = Int (Z.of_N (N.of_uint d)).
Proof.
  destruct d; intros Hd; [contradiction | ..];
    unfold parseInt10; simpl NilEmpty.string_of_uint;
    unfold trim_start; fold trim_start;
    match goal with
    | |- context [is_white_space ?c] => change (is_white_space c) with false
    end;
    cbv iota beta; unfold parse_digits; fold parse_digits;
    match goal with
    | |- context [digit_value ?c] =>
        let v := eval vm_compute in (digit_value c) in
        change (digit_value c) with v
    end;
    cbv iota beta; simpl default; rewrite N.mul_0_r, N.add_0_l;
    rewrite ?parse_digits_zero, ?parse_digits_acc;
    rewrite Z.mul_1_l; reflexivity.
Qed.

(** [parseInt] reads back the number a decimal numeral was written from. *)
Lemma parseInt10_numeral (n : N) : parseInt10 (numeral n) = Int (Z.of_N n).
Proof.
  unfold numeral. rewrite parseInt10_uint.
  - rewrite DecimalN.Unsigned.of_to. reflexivity.
  - destruct n; [discriminate | apply DecimalPos.Unsigned.to_uint_nonnil].
Qed.

Section HandlerFacts.
Variable Date_getTime : string -> number.
Variable Date_now : Z.

(** C8: the payload names the template, [contract = "TokenVesting"], and
    its [params] map has exactly the six declared parameter names; the
    three addresses are the strings of the form, unchanged; [start_time] is
    the time of the entered date in seconds, [Math.floor(ms / 1000)] (the
    current time in seconds when no date is entered);
    [cliff_duration] and [duration] are [parseInt(s, 10)] of their fields.
    For a filled form -- a date the browser parses and durations written as
    decimal numerals of safe integers -- all three are integers, the
    durations being the numbers written. *)
Theorem handleSubmit_payload_spec (formData : VestingFormData) :
  contract (handleSubmit_payload Date_getTime Date_now formData)
  = "TokenVesting" /\
  dom (params (handleSubmit_payload Date_getTime Date_now formData))
  = {[ "token_address"; "beneficiary"; "start_time"; "cliff_duration";
       "duration"; "initial_owner" ]} /\
  params (handleSubmit_payload Date_getTime Date_now formData)
    !! "token_address" = Some (VString (tokenAddress formData)) /\
  params (handleSubmit_payload Date_getTime Date_now formData)
    !! "beneficiary" = Some (VString (beneficiaryAddress formData)) /\
  params (handleSubmit_payload Date_getTime Date_now formData)
    !! "initial_owner" = Some (VString (initialOwnerAddress formData)) /\
  params (handleSubmit_payload Date_getTime Date_now formData)
    !! "cliff_duration"
  = Some (VNumber (parseInt10 (cliffDurationSeconds formData))) /\
  params (handleSubmit_payload Date_getTime Date_now formData)
    !! "duration"
  = Some (VNumber (parseInt10 (totalVestingSeconds formData))) /\
  (startTime formData <> EmptyString ->
   params (handleSubmit_payload Date_getTime Date_now formData)
     !! "start_time"
   = Some (VNumber (unix_seconds (Date_getTime (startTime formData))))) /\
  (startTime formData = EmptyString ->
   params (handleSubmit_payload Date_getTime Date_now formData)
     !! "start_time"
   = Some (VNumber (Int (Date_now / 1000)))) /\
  (forall ms cliff total,
     filled Date_getTime formData ms cliff total ->
     params (handleSubmit_payload Date_getTime Date_now formData)
       !! "start_time" = Some (VNumber (Int (ms / 1000))) /\
     params (handleSubmit_payload Date_getTime Date_now formData)
       !! "cliff_duration" = Some (VNumber (Int (Z.of_N cliff))) /\
     params (handleSubmit_payload Date_getTime Date_now formData)
       !! "duration" = Some (VNumber (Int (Z.of_N total)))).
Proof.
  assert (Hstart : startTime formData <> EmptyString ->
    params (handleSubmit_payload Date_getTime Date_now formData)
      !! "start_time"
    = Some (VNumber (unix_seconds (Date_getTime (startTime formData))))).
  { intros Hne. unfold handleSubmit_payload. simpl params.
    rewrite lookup_insert_ne by discriminate.
    rewrite lookup_insert_ne by discriminate.
    rewrite lookup_insert_eq.
    destruct (String.eqb_spec (startTime formData) EmptyString); [contradiction |].
    reflexivity. }
  unfold handleSubmit_payload in *. simpl params in *.
  split; [reflexivity |].
  split; [rewrite !dom_insert_L, dom_empty_L; set_solver |].
  do 5 (split; [by simplify_map_eq |]).
  split; [exact Hstart |].
  split; [intros ->; by simplify_map_eq |].
  intros ms cliff total (Hne & Hms & Hcliff & _ & Htotal & _).
  rewrite (Hstart Hne), Hms.
  split; [reflexivity |].
  rewrite <- (parseInt10_numeral cliff), <- (parseInt10_numeral total).
  rewrite <- Hcliff, <- Htotal.
  split; by simplify_map_eq.
Qed.

End HandlerFacts.
End FrontendFacts.

(** ** The sample tokens *)

(** A successful transfer of the reverting token takes exactly [value] from
    the balance of the sender, when the receiver is someone else. *)
Lemma ERC20_transfer_debits (t t' : ERC20) (sender to value : N) :
  sender <> to ->
  ERC20_transfer t sender to value = Returned true t' ->
  ERC20_balanceOf t' sender + value = ERC20_balanceOf t sender.
Proof.
  intros Hne. unfold ERC20_transfer.
  destruct (sender =? 0); [discriminate |].
  destruct (to =? 0); [discriminate |].
  destruct (N.ltb_spec (ERC20_balanceOf t sender) value) as [| Hle];
    [discriminate |].
  intros [= <-]. unfold ERC20_balanceOf at 1. simpl.
  rewrite lookup_insert_ne by congruence.
  rewrite lookup_insert_eq. simpl. lia.
Qed.

(** ** Concrete runs *)

Lemma vested_amount_piecewise_witness :
  _vested_amount (sample_world 1000 0) 1005 = Ok 0 /\
  _vested_amount (sample_world 1000 0) 1100 = Ok 1000 /\
  _vested_amount (sample_world 1000 0) 1050 = Ok 500.
Proof.
  assert (Hcd : cliff_duration (vesting (sample_world 1000 0))
                <= duration (vesting (sample_world 1000 0)))
    by (vm_compute; discriminate).
  assert (Hd : 0 < duration (vesting (sample_world 1000 0))) by reflexivity.
  assert (Htot : total_ever_held (sample_world 1000 0) <= MAX_UINT256)
    by (vm_compute; discriminate).
  assert (Hend : start_time (vesting (sample_world 1000 0))
                 + duration (vesting (sample_world 1000 0)) <= MAX_UINT256)
    by (vm_compute; discriminate).
  destruct (vested_amount_piecewise (sample_world 1000 0) 1005 Hcd Hd Htot Hend)
    as (Hbefore & _).
  destruct (vested_amount_piecewise (sample_world 1000 0) 1100 Hcd Hd Htot Hend)
    as (_ & Hafter & _).
  destruct (vested_amount_piecewise (sample_world 1000 0) 1050 Hcd Hd Htot Hend)
    as (_ & _ & Hlinear & _).
  split; [| split].
  - apply Hbefore. reflexivity.
  - apply Hafter. vm_compute; discriminate.
  - apply Hlinear.
    + vm_compute; discriminate.
    + reflexivity.
    + vm_compute; discriminate.
Defined.

(** With 2^255 tokens held, half way through the schedule the product
    [total * (t - start)] needs more than 256 bits: the call reverts where
    the unbounded formula gives 2^254. *)
Lemma vested_amount_overflow_counterexample :
  cliff_duration (vesting (sample_world (2 ^ 255) 0))
  <= duration (vesting (sample_world (2 ^ 255) 0)) /\
  0 < duration (vesting (sample_world (2 ^ 255) 0)) /\
  start_time (vesting (sample_world (2 ^ 255) 0))
  + cliff_duration (vesting (sample_world (2 ^ 255) 0)) <= 1050 /\
  1050 < start_time (vesting (sample_world (2 ^ 255) 0))
         + duration (vesting (sample_world (2 ^ 255) 0)) /\
  total_ever_held (sample_world (2 ^ 255) 0) * (1050 - 1000) / 100 = 2 ^ 254 /\
  _vested_amount (sample_world (2 ^ 255) 0) 1050 = Revert (Panic ARITHMETIC) /\
  _vested_amount (sample_world (2 ^ 255) 0) 1050
  <> Ok (total_ever_held (sample_world (2 ^ 255) 0) * (1050 - 1000) / 100).
Proof.
  repeat split; try (vm_compute; congruence).
Qed.

(** The two checked sums of the same path: 2^255 tokens released and
    deposited again make [balance + released] overflow, and a schedule
    starting at the last [uint256] has no representable end. *)
Example vested_amount_sum_overflow :
  _vested_amount (sample_world (2 ^ 255) (2 ^ 255)) 1005
  = Revert (Panic ARITHMETIC).
Proof. reflexivity. Qed.

Example vested_amount_end_overflow :
  constructor Ownable_nonzero 100 5 7 200 MAX_UINT256 0 1 1
  = Ok (vesting (late_world 1000)) /\
  _vested_amount (late_world 1000) MAX_UINT256 = Revert (Panic ARITHMETIC).
Proof. split; reflexivity. Qed.

Lemma vested_amount_monotone_witness :
  _vested_amount (sample_world 1000 0) 1020 = Ok 200 /\
  _vested_amount (sample_world 1000 0) 1050 = Ok 500 /\
  200 <= 500 /\
  exists v1 v2,
    _vested_amount (sample_world 1000 0) 1020 = Ok v1 /\
    _vested_amount (sample_world 1000 0) 1050 = Ok v2 /\ v1 <= v2.
Proof.
  assert (Hcd : cliff_duration (vesting (sample_world 1000 0))
                <= duration (vesting (sample_world 1000 0)))
    by (vm_compute; discriminate).
  assert (Hd : 0 < duration (vesting (sample_world 1000 0))) by reflexivity.
  assert (Hle : 1020 <= 1050) by (vm_compute; discriminate).
  destruct (vested_amount_monotone (sample_world 1000 0) 1020 1050 Hcd Hd Hle)
    as [Hreturned Hfits].
  split; [reflexivity | split; [reflexivity | split]].
  - apply Hreturned; reflexivity.
  - apply Hfits. split; vm_compute; discriminate.
Defined.

Lemma vested_amount_bounded_witness :
  _vested_amount (sample_world 700 300) 1050 = Ok 500 /\
  500 <= balanceOf (erc20 (sample_world 700 300)) 100 + 300 /\
  exists v,
    _vested_amount (sample_world 700 300) 1050 = Ok v /\
    v <= balanceOf (erc20 (sample_world 700 300))
           (this (vesting (sample_world 700 300)))
         + released (vesting (sample_world 700 300)).
Proof.
  assert (Hcd : cliff_duration (vesting (sample_world 700 300))
                <= duration (vesting (sample_world 700 300)))
    by (vm_compute; discriminate).
  assert (Hd : 0 < duration (vesting (sample_world 700 300))) by reflexivity.
  destruct (vested_amount_bounded (sample_world 700 300) 1050 Hcd Hd)
    as [Hreturned Hfits].
  split; [reflexivity | split].
  - apply (Hreturned 500). reflexivity.
  - apply Hfits. split; vm_compute; discriminate.
Defined.

Lemma releasable_amount_witness :
  releasable_amount 1050 (sample_world 700 300) = Ok 200.
Proof.
  apply releasable_amount_is_vested_minus_released.
  exists 500. split; reflexivity.
Defined.

(** On the paused token the transfer returns [false]: [release()] reverts
    and the world is as before. *)
Lemma release_atomic_witness :
  releasable_amount 1050 (paused_world 1000) = Ok 500 /\
  exists f,
    transact (release 1050) (paused_world 1000)
    = (Revert f, paused_world 1000).
Proof.
  split; [reflexivity |].
  apply (release_atomic_on_transfer_failure (paused_world 1000) 1050 500).
  - reflexivity.
  - reflexivity.
  - reflexivity.
  - exact I.
Defined.

(** The body of that run had moved the counter to 500 before the transfer
    reported the failure. *)
Example paused_release_had_advanced :
  released (vesting (snd (release 1050 (paused_world 1000)))) = 500 /\
  released (vesting (snd (transact (release 1050) (paused_world 1000)))) = 0.
Proof. split; reflexivity. Qed.

Lemma release_succeeds_witness :
  exists w',
    transact (release 1050) (sample_world 1000 0) = (Ok tt, w') /\
    released (vesting w') = 500 /\
    balanceOf (erc20 w') 200 = 500 /\
    balanceOf (erc20 w') 100 = 500.
Proof.
  assert (Hs : _status (vesting (sample_world 1000 0)) = NOT_ENTERED)
    by reflexivity.
  destruct (release_succeeds_iff_transfer (sample_world 1000 0) 1050 Hs)
    as (_ & _ & Hpositive).
  assert (Hr : releasable_amount 1050 (sample_world 1000 0) = Ok 500)
    by reflexivity.
  assert (Hpos : 0 < 500) by reflexivity.
  eexists. split.
  - apply (Hpositive 500 Hr Hpos). eexists. split; reflexivity.
  - repeat split; reflexivity.
Defined.

(** On the paused token 1000 tokens are releasable after the end of the
    schedule, and [release()] fails all the same. *)
Lemma release_fails_with_tokens_due_counterexample :
  releasable_amount 1100 (paused_world 1000) = Ok 1000 /\
  releasable_amount 1100 (paused_world 1000) <> Ok 0 /\
  transact (release 1100) (paused_world 1000)
  = (Revert (Error "TokenVesting: token transfer failed"), paused_world 1000).
Proof.
  split; [reflexivity | split; [discriminate | reflexivity]].
Qed.

Lemma release_preserves_total_witness :
  exists w',
    transact (release 1050) (sample_world 1000 0) = (Ok tt, w') /\
    balanceOf (erc20 w') (this (vesting w')) + released (vesting w')
    = balanceOf (erc20 (sample_world 1000 0))
        (this (vesting (sample_world 1000 0)))
      + released (vesting (sample_world 1000 0)) /\
    (forall t, _vested_amount w' t = _vested_amount (sample_world 1000 0) t).
Proof.
  eexists. split; [reflexivity |].
  apply (release_preserves_total (sample_world 1000 0) _ 1050).
  - intros amount tok' Htr.
    apply (ERC20_transfer_debits (erc20 (sample_world 1000 0)) tok' 100 200).
    + discriminate.
    + exact Htr.
  - reflexivity.
Defined.

Lemma deposit_witness :
  balanceOf (erc20 (deposit 500 (sample_world 1000 0))) 100 = 1500 /\
  (500 <= 750 /\ 500 + 500 * (1050 - 1000) / 100 <= 750) /\
  (1000 <= 1500 /\ 1500 = 1000 + 500).
Proof.
  assert (Hsame : vesting (deposit 500 (sample_world 1000 0))
                  = vesting (sample_world 1000 0)) by reflexivity.
  assert (Hbal : balanceOf (erc20 (deposit 500 (sample_world 1000 0)))
                   (this (vesting (sample_world 1000 0)))
                 = balanceOf (erc20 (sample_world 1000 0))
                     (this (vesting (sample_world 1000 0))) + 500)
    by reflexivity.
  assert (Hmid : _vested_amount (sample_world 1000 0) 1050 = Ok 500)
    by reflexivity.
  assert (Hmid' : _vested_amount (deposit 500 (sample_world 1000 0)) 1050
                  = Ok 750) by reflexivity.
  assert (Hend : _vested_amount (sample_world 1000 0) 1100 = Ok 1000)
    by reflexivity.
  assert (Hend' : _vested_amount (deposit 500 (sample_world 1000 0)) 1100
                  = Ok 1500) by reflexivity.
  destruct (deposit_never_lowers_vested _ _ 500 1050 500 750
              Hsame Hbal Hmid Hmid') as (Hle & _ & _ & Hlinear).
  destruct (deposit_never_lowers_vested _ _ 500 1100 1000 1500
              Hsame Hbal Hend Hend') as (Hle' & _ & Hafter & _).
  split; [reflexivity | split; split].
  - exact Hle.
  - apply Hlinear; [vm_compute; discriminate | reflexivity].
  - exact Hle'.
  - apply Hafter; vm_compute; discriminate.
Defined.

(** Two deposits that do not raise the vested amount at a later timestamp:
    500 tokens seen before the end of the cliff, where the amount stays 0,
    and 5 tokens seen at the end of the cliff, where the division rounds
    the increase away. *)
Lemma deposit_not_raising_counterexample :
  balanceOf (erc20 (deposit 500 (sample_world 1000 0))) 100
  = balanceOf (erc20 (sample_world 1000 0)) 100 + 500 /\
  _vested_amount (sample_world 1000 0) 1005 = Ok 0 /\
  _vested_amount (deposit 500 (sample_world 1000 0)) 1005 = Ok 0 /\
  balanceOf (erc20 (deposit 5 (sample_world 1000 0))) 100
  = balanceOf (erc20 (sample_world 1000 0)) 100 + 5 /\
  _vested_amount (sample_world 1000 0) 1010 = Ok 100 /\
  _vested_amount (deposit 5 (sample_world 1000 0)) 1010 = Ok 100.
Proof.
  repeat split; reflexivity.
Qed.

(** Every one of the five constraints holds, and the construction reverts:
    the initial owner is [address(0)], which [Ownable] rejects. *)
Lemma constructor_zero_owner_counterexample :
  (7 <> 0 /\ 200 <> 0 /\ 0 < 100 /\ 10 <= 100 /\ 5 <= 1000) /\
  constructor Ownable_nonzero 100 5 7 200 1000 10 100 0
  = Revert (CustomError "OwnableInvalidOwner").
Proof.
  split; [| reflexivity].
  repeat split; try discriminate.
Qed.

Lemma constructor_witness :
  constructor Ownable_nonzero 100 5 7 200 1000 10 100 1
  = Ok (sample_vesting 0).
Proof.
  apply (constructor_succeeds_iff Ownable_nonzero 100 5 7 200 1000 10 100 1).
  exists 1. repeat split; try discriminate.
Defined.

Module FrontendRuns.
Import Frontend FrontendFacts.

(** [parseInt] stops at the first character that is not a digit. *)
Example parseInt10_prefix :
  parseInt10 "  42px" = Int 42 /\ parseInt10 "1e3" = Int 1 /\
  parseInt10 "-7" = Int (-7) /\ parseInt10 "abc" = NaN.
Proof. repeat split; reflexivity. Qed.

Lemma handleSubmit_payload_witness :
  params (handleSubmit_payload sample_getTime 0 sample_form) !! "start_time"
  = Some (VNumber (Int 1798761600)) /\
  params (handleSubmit_payload sample_getTime 0 sample_form)
    !! "cliff_duration" = Some (VNumber (Int 2592000)) /\
  params (handleSubmit_payload sample_getTime 0 sample_form) !! "duration"
  = Some (VNumber (Int 31536000)).
Proof.
  destruct (handleSubmit_payload_spec sample_getTime 0 sample_form)
    as (_ & _ & _ & _ & _ & _ & _ & _ & _ & Hfilled).
  apply (Hfilled 1798761600000%Z 2592000 31536000).
  repeat split; try discriminate; reflexivity.
Defined.

End FrontendRuns.

(** * Further properties of the contract *)

Section ReleaseSequences.
Context {T : Type} `{IERC20 T}.

(** What a successful [release()] has done. *)
Lemma release_success_inv (w w' : world T) now :
  transact (release now) w = (Ok tt, w') ->
  _status (vesting w) = NOT_ENTERED /\
  exists amount tok',
    releasable_amount now w = Ok amount /\ 0 < amount /\
    transfer (erc20 w) (this (vesting w)) (beneficiary (vesting w)) amount
    = Returned true tok' /\
    w' = Build_world tok'
           (set_released (released (vesting w) + amount) (vesting w)).
Proof.
  intros Hrel. destruct (_status (vesting w)) eqn:Hs.
  2: { unfold transact in Hrel. rewrite release_entered in Hrel by exact Hs.
       discriminate. }
  split; [reflexivity |].
  unfold transact in Hrel. rewrite release_run in Hrel by exact Hs.
  cbv zeta in Hrel.
  destruct (releasable_amount now w) as [amount | f] eqn:Hr;
    [| discriminate].
  destruct (N.eq_0_gt_0_cases amount) as [-> | Hpos]; [discriminate |].
  rewrite (released_plus_releasable w now amount Hr) in Hrel.
  destruct (N.ltb_spec 0 amount); [| lia].
  destruct (transfer (erc20 w) (this (vesting w)) (beneficiary (vesting w))
              amount) as [[|] tok' |] eqn:Htr; try discriminate.
  injection Hrel as <-. exists amount, tok'. auto.
Qed.

(** When nothing can have vested, [release()] fails, whatever the token and
    the counter. *)
Lemma release_fails_if_nothing_vested (w : world T) now :
  (forall v, _vested_amount w now = Ok v -> v = 0) ->
  exists f, transact (release now) w = (Revert f, w).
Proof.
  intros Hzero. unfold transact.
  destruct (_status (vesting w)) eqn:Hs.
  2: { rewrite release_entered by exact Hs. eexists. reflexivity. }
  rewrite release_run by exact Hs. cbv zeta.
  destruct (releasable_amount now w) as [amount | f] eqn:Hr.
  2: { eexists. reflexivity. }
  unfold releasable_amount in Hr.
  apply bind_Ok in Hr as (v & Hv & Hsub).
  apply Hzero in Hv as ->.
  apply checked_sub_Ok in Hsub as [_ ->]. simpl.
  eexists. reflexivity.
Qed.

(** X1: before [start_time + cliff_duration] every call of [release()]
    reverts and leaves the state as it was, for every token, balance and
    value of the counter. *)
Theorem release_fails_before_cliff (w : world T) (t : N) :
  t < start_time (vesting w) + cliff_duration (vesting w) ->
  exists f, transact (release t) w = (Revert f, w).
Proof.
  intros Hlt. apply release_fails_if_nothing_vested. intros v Hv.
  apply vested_amount_Ok in Hv. cbv zeta in Hv.
  destruct Hv as (_ & _ & [[_ ->] | (Hge & _)]); [reflexivity | lia].
Qed.

(** X2: a contract the constructor has built cannot release anything up to
    its start time -- in particular not in the block that created it --
    whatever tokens it already holds. *)
Theorem fresh_contract_cannot_release
    (Ownable_constructor : address -> result address)
    (self block_timestamp _token_address _beneficiary : N)
    (_start_time _cliff_duration _duration _initial_owner : N)
    (c : TokenVesting) (tok : T) (t : N) :
  constructor Ownable_constructor self block_timestamp _token_address
    _beneficiary _start_time _cliff_duration _duration _initial_owner = Ok c ->
  t <= _start_time ->
  block_timestamp <= _start_time /\
  exists f,
    transact (release t) (Build_world tok c) = (Revert f, Build_world tok c).
Proof.
  intros Hc Hle. unfold constructor, require in Hc.
  destruct (Ownable_constructor _initial_owner) as [owner | f];
    simpl in Hc; [| discriminate].
  destruct (negb (_token_address =? 0)); simpl in Hc; [| discriminate].
  destruct (negb (_beneficiary =? 0)); simpl in Hc; [| discriminate].
  destruct (N.ltb_spec 0 _duration) as [Hd | Hd]; simpl in Hc;
    [| discriminate].
  destruct (_cliff_duration <=? _duration); simpl in Hc; [| discriminate].
  destruct (N.leb_spec block_timestamp _start_time) as [Hs | Hs];
    simpl in Hc; [| discriminate].
  injection Hc as <-. split; [exact Hs |].
  apply release_fails_if_nothing_vested. intros v Hv.
  apply vested_amount_Ok in Hv. cbv zeta in Hv. simpl in Hv.
  destruct Hv as (_ & _ & [[_ ->] | (_ & _ & [[Hend _] | (_ & _ & _ & ->)])]).
  - reflexivity.
  - lia.
  - replace (t - _start_time) with 0 by lia.
    rewrite N.mul_0_r. apply N.Div0.div_0_l.
Qed.

(** X3: [release()] never asks the token for more than the contract
    holds: the releasable amount is at most the contract's balance. *)
Theorem releasable_amount_le_balance (w : world T) (now amount : N) :
  releasable_amount now w = Ok amount ->
  amount <= balanceOf (erc20 w) (this (vesting w)).
Proof.
  intros Hr. unfold releasable_amount in Hr.
  apply bind_Ok in Hr as (v & Hv & Hsub).
  apply checked_sub_Ok in Hsub as [Hle ->].
  pose proof (vested_amount_le_total w now v Hv) as Hbound.
  unfold total_ever_held in Hbound. lia.
Qed.

(** The state after a successful [release()], in terms of the vested
    amount. *)
Lemma release_success_state (w w' : world T) now :
  transact (release now) w = (Ok tt, w') ->
  _status (vesting w) = NOT_ENTERED /\
  exists v tok',
    _vested_amount w now = Ok v /\
    released (vesting w) < v /\
    transfer (erc20 w) (this (vesting w)) (beneficiary (vesting w))
             (v - released (vesting w)) = Returned true tok' /\
    w' = Build_world tok' (set_released v (vesting w)).
Proof.
  intros Hrel.
  apply release_success_inv in Hrel
    as (Hs & amount & tok' & Hr & Hpos & Htr & ->).
  split; [exact Hs |].
  unfold releasable_amount in Hr.
  apply bind_Ok in Hr as (v & Hv & Hsub).
  apply checked_sub_Ok in Hsub as [Hle ->].
  exists v, tok'.
  replace (released (vesting w) + (v - released (vesting w))) with v by lia.
  repeat split; try assumption. lia.
Qed.

(** With a token that debits exactly, a successful [release()] leaves
    [balance + released] as it was. *)
Lemma release_success_total (w : world T) v tok' :
  debits_exactly w ->
  released (vesting w) < v ->
  transfer (erc20 w) (this (vesting w)) (beneficiary (vesting w))
           (v - released (vesting w)) = Returned true tok' ->
  total_ever_held (Build_world tok' (set_released v (vesting w)))
  = total_ever_held w.
Proof.
  intros Hexact Hlt Htr. specialize (Hexact _ _ Htr).
  unfold total_ever_held. simpl. lia.
Qed.



(** X6: with a token that debits exactly, a second [release()] at the
    same timestamp finds nothing due and reverts. *)
Theorem second_release_nothing_due (w w' : world T) (now : N) :
  debits_exactly w ->
  transact (release now) w = (Ok tt, w') ->
  releasable_amount now w' = Ok 0 /\
  transact (release now) w'
  = (Revert (Error "TokenVesting: no tokens are due"), w').
Proof.
  intros Hexact Hrel.
  apply release_success_state in Hrel as (Hs & v & tok' & Hv & Hlt & Htr & ->).
  pose proof (release_success_total w v tok' Hexact Hlt Htr) as Htot.
  assert (Hr : releasable_amount now
                 (Build_world tok' (set_released v (vesting w))) = Ok 0).
  { unfold releasable_amount.
    erewrite vested_amount_same_total with (w := w);
      [| reflexivity | exact Htot].
    rewrite Hv. simpl.
    unfold checked_sub. rewrite N.leb_refl, N.sub_diag. reflexivity. }
  split; [exact Hr |].
  unfold transact. rewrite release_run by exact Hs. cbv zeta.
  rewrite Hr. reflexivity.
Qed.

(** X7: with a token that debits exactly, a successful [release()] at or
    after [start_time + duration] pays out the whole balance: the contract
    holds no tokens afterwards and the counter is the total ever held. *)
Theorem release_after_end_empties (w w' : world T) (t : N) :
  debits_exactly w ->
  cliff_duration (vesting w) <= duration (vesting w) ->
  start_time (vesting w) + duration (vesting w) <= t ->
  transact (release t) w = (Ok tt, w') ->
  balanceOf (erc20 w') (this (vesting w')) = 0 /\
  released (vesting w')
  = balanceOf (erc20 w) (this (vesting w)) + released (vesting w).
Proof.
  intros Hexact Hcd Hend Hrel.
  apply release_success_state in Hrel as (_ & v & tok' & Hv & Hlt & Htr & ->).
  specialize (Hexact _ _ Htr).
  apply vested_amount_Ok in Hv. cbv zeta in Hv. unfold total_ever_held in Hv.
  destruct Hv as (_ & _ & [[Hbefore _] | (_ & _ & [[_ ->] | (Hmid & _)])]);
    try lia.
  simpl. split; lia.
Qed.

(** X8: with a token that debits exactly, releasing at [t1] and again at
    [t2] leaves the counter at the amount that had vested at [t2] in the
    state before both calls: two releases pay out as much as one release
    at [t2] would have. *)
Theorem release_twice_pays_vested (w w1 w2 : world T) (t1 t2 : N) :
  debits_exactly w ->
  transact (release t1) w = (Ok tt, w1) ->
  transact (release t2) w1 = (Ok tt, w2) ->
  _vested_amount w t2 = Ok (released (vesting w2)) /\
  released (vesting w) < released (vesting w1) /\
  released (vesting w1) < released (vesting w2).
Proof.
  intros Hexact Hrel1 Hrel2.
  apply release_success_state in Hrel1
    as (_ & v1 & tok1 & Hv1 & Hlt1 & Htr1 & ->).
  pose proof (release_success_total w v1 tok1 Hexact Hlt1 Htr1) as Htot.
  apply release_success_state in Hrel2
    as (_ & v2 & tok2 & Hv2 & Hlt2 & _ & ->).
  erewrite vested_amount_same_total with (w := w) in Hv2;
    [| reflexivity | exact Htot].
  simpl in *. auto.
Qed.

(** X9: once the schedule has ended the whole balance is releasable,
    tokens that arrived late included, when the checked sums of the source
    fit in 256 bits. *)
Theorem releasable_after_end_is_balance (w : world T) (t : N) :
  cliff_duration (vesting w) <= duration (vesting w) ->
  total_ever_held w <= MAX_UINT256 ->
  start_time (vesting w) + duration (vesting w) <= MAX_UINT256 ->
  start_time (vesting w) + duration (vesting w) <= t ->
  releasable_amount t w = Ok (balanceOf (erc20 w) (this (vesting w))).
Proof.
  intros Hcd Htot Hfit Hend. unfold releasable_amount.
  rewrite vested_amount_after_end by assumption. simpl.
  apply checked_sub_Ok. unfold total_ever_held. split; lia.
Qed.

(** X10: when [start_time + cliff_duration] or [balance + released] does
    not fit in 256 bits, [release()] reverts at every timestamp: the
    tokens the contract holds cannot be released. *)
Theorem release_locked_on_overflow (w : world T) (t : N) :
  MAX_UINT256 < start_time (vesting w) + cliff_duration (vesting w) \/
  MAX_UINT256 < total_ever_held w ->
  _vested_amount w t = Revert (Panic ARITHMETIC) /\
  exists f, transact (release t) w = (Revert f, w).
Proof.
  intros Hover.
  assert (Hv : _vested_amount w t = Revert (Panic ARITHMETIC)).
  { unfold _vested_amount, total_ever_held in *. cbv zeta.
    unfold checked_add at 1.
    destruct (N.leb_spec (balanceOf (erc20 w) (this (vesting w))
                          + released (vesting w)) MAX_UINT256) as [Hfit | Hno];
      [| reflexivity].
    simpl. unfold checked_add at 1.
    destruct (N.leb_spec (start_time (vesting w) + cliff_duration (vesting w))
                MAX_UINT256); [lia | reflexivity]. }
  split; [exact Hv |].
  apply release_fails_if_nothing_vested. intros v Hv'. congruence.
Qed.

End ReleaseSequences.

(** * Further properties of the page *)

Module PageFacts.
Import Frontend FrontendFacts Page.

(** ** Durations that are not plain numerals *)












Section PayloadEdges.
Variable Date_getTime : string -> number.
Variable Date_now : Z.






(** ** Editing the form *)

Lemma read_form_handleChange_Some
    (o : gmap string string) (fd : VestingFormData) (name value : string) :
  read_form o = Some fd ->
  read_form (handleChange name value o) = Some (with_field name value fd).
Proof.
  unfold read_form, handleChange, with_field. intros Hread.
  destruct (o !! "tokenAddress") as [t |] eqn:Ht; [| discriminate].
  destruct (o !! "beneficiaryAddress") as [b |] eqn:Hb; [| discriminate].
  destruct (o !! "startTime") as [s |] eqn:Hs; [| discriminate].
  destruct (o !! "cliffDurationSeconds") as [c |] eqn:Hc; [| discriminate].
  destruct (o !! "totalVestingSeconds") as [d |] eqn:Hd; [| discriminate].
  destruct (o !! "initialOwnerAddress") as [i |] eqn:Hi; [| discriminate].
  injection Hread as <-. simpl.
  rewrite !lookup_insert.
  repeat match goal with
  | |- context [String.eqb name ?k] =>
      destruct (String.eqb_spec name k) as [-> | ?]
  end;
  repeat case_decide; try congruence;
  rewrite ?Ht, ?Hb, ?Hs, ?Hc, ?Hd, ?Hi; reflexivity.
Qed.

(** X14: a change event replaces the property it names and no other: the
    form read back is the old one with that field set, and an event whose
    name is not one of the six fields leaves all six as they were. *)
Theorem handleChange_sets_field
    (o : gmap string string) (fd : VestingFormData) (name value : string) :
  read_form o = Some fd ->
  read_form (handleChange name value o) = Some (with_field name value fd) /\
  handleChange name value o !! name = Some value /\
  (forall other, other <> name ->
     handleChange name value o !! other = o !! other) /\
  (name <> "tokenAddress" -> name <> "beneficiaryAddress" ->
   name <> "startTime" -> name <> "cliffDurationSeconds" ->
   name <> "totalVestingSeconds" -> name <> "initialOwnerAddress" ->
   read_form (handleChange name value o) = Some fd).
Proof.
  intros Hread. split; [| split; [| split]].
  - apply read_form_handleChange_Some. exact Hread.
  - unfold handleChange. apply lookup_insert_eq.
  - intros other Hne. unfold handleChange. apply lookup_insert_ne. congruence.
  - intros H1 H2 H3 H4 H5 H6.
    rewrite (read_form_handleChange_Some o fd name value Hread).
    unfold with_field.
    repeat match goal with
    | |- context [String.eqb name ?k] =>
        destruct (String.eqb_spec name k); [contradiction |]
    end.
    destruct fd; reflexivity.
Qed.

(** X15: whatever change events arrive, in whatever order, all six
    properties of the form object stay defined: [handleSubmit] never reads
    [undefined]. *)
Theorem form_always_readable (events : list (string * string)) :
  is_Some (read_form
             (foldl (fun o e => handleChange e.1 e.2 o)
                    initial_formData events)).
Proof.
  assert (Hstep : forall evs o,
            is_Some (read_form o) ->
            is_Some (read_form (foldl (fun o e => handleChange e.1 e.2 o)
                                      o evs))).
  { induction evs as [| [name value] evs IH]; intros o Ho; simpl.
    - exact Ho.
    - apply IH. destruct Ho as [fd Hfd].
      rewrite (read_form_handleChange_Some o fd name value Hfd). eauto. }
  apply Hstep. eexists. reflexivity.
Qed.

(** X16: editing one input changes exactly its own parameter of the
    payload: the parameter named after the field takes the value converted
    from the new text, and the other five stay. *)
Theorem edit_changes_one_param
    (o : gmap string string) (fd : VestingFormData) (value : string) :
  read_form o = Some fd ->
  (exists fd',
     read_form (handleChange "tokenAddress" value o) = Some fd' /\
     params (handleSubmit_payload Date_getTime Date_now fd')
     = <["token_address" := VString value]>
         (params (handleSubmit_payload Date_getTime Date_now fd))) /\
  (exists fd',
     read_form (handleChange "beneficiaryAddress" value o) = Some fd' /\
     params (handleSubmit_payload Date_getTime Date_now fd')
     = <["beneficiary" := VString value]>
         (params (handleSubmit_payload Date_getTime Date_now fd))) /\
  (exists fd',
     read_form (handleChange "initialOwnerAddress" value o) = Some fd' /\
     params (handleSubmit_payload Date_getTime Date_now fd')
     = <["initial_owner" := VString value]>
         (params (handleSubmit_payload Date_getTime Date_now fd))) /\
  (exists fd',
     read_form (handleChange "cliffDurationSeconds" value o) = Some fd' /\
     params (handleSubmit_payload Date_getTime Date_now fd')
     = <["cliff_duration" := VNumber (parseInt10 value)]>
         (params (handleSubmit_payload Date_getTime Date_now fd))) /\
  (exists fd',
     read_form (handleChange "totalVestingSeconds" value o) = Some fd' /\
     params (handleSubmit_payload Date_getTime Date_now fd')
     = <["duration" := VNumber (parseInt10 value)]>
         (params (handleSubmit_payload Date_getTime Date_now fd))) /\
  (value <> EmptyString ->
   exists fd',
     read_form (handleChange "startTime" value o) = Some fd' /\
     params (handleSubmit_payload Date_getTime Date_now fd')
     = <["start_time" := VNumber (unix_seconds (Date_getTime value))]>
         (params (handleSubmit_payload Date_getTime Date_now fd))).
Proof.
  intros Hread.
  repeat split; try intros Hne; eexists;
    (split; [apply read_form_handleChange_Some; exact Hread |]);
    unfold handleSubmit_payload, with_field; simpl;
    try (destruct (String.eqb_spec value EmptyString); [contradiction |]);
    apply map_eq; intros k; rewrite !lookup_insert;
    repeat case_decide; congruence.
Qed.

End PayloadEdges.

(** ** The answer of the backend *)

Lemma append_nonempty (c : ascii) (a b : string) :
  String c a +:+ b <> EmptyString.
Proof. discriminate. Qed.

(** X17: once the request has ended the status box is shown, and the
    contract details are shown exactly when the response was [ok] and its
    body reported success -- never after a rejected request, an HTTP error
    or a failed deployment; while the request is under way the details of
    an earlier deployment are hidden. *)
Theorem details_shown_iff_success (r : response) :
  shows_status (handleSubmit_settle r) = true /\
  (shows_contract_details (handleSubmit_settle r) = true <->
   exists result, r = Json result /\ success result = true) /\
  (forall result,
     deployedContractInfo (handleSubmit_settle r) = Some result <->
     r = Json result /\ success result = true) /\
  shows_contract_details handleSubmit_start = false.
Proof.
  split; [| split; [| split]].
  - destruct r as [msg | status body | result]; simpl;
      [reflexivity | reflexivity |].
    destruct (success result); reflexivity.
  - destruct r as [msg | status body | result]; simpl.
    + split; [discriminate | intros (x & Habs & _); discriminate].
    + split; [discriminate | intros (x & Habs & _); discriminate].
    + destruct (success result) eqn:Hs; simpl.
      * split; [eauto |]. intros _.
        unfold shows_contract_details, shows_status. simpl.
        rewrite Hs. reflexivity.
      * split; [| intros (x & [= <-] & Habs); congruence].
        unfold shows_contract_details, shows_status. simpl. discriminate.
  - intros result'. destruct r as [msg | status body | result]; simpl.
    + split; [discriminate | intros [Habs _]; discriminate].
    + split; [discriminate | intros [Habs _]; discriminate].
    + destruct (success result) eqn:Hs; simpl.
      * split; [intros [= <-]; auto | intros [[= <-] _]; reflexivity].
      * split; [discriminate | intros [[= <-] Habs]; congruence].
  - reflexivity.
Qed.

End PageFacts.

(** ** Concrete runs of the further properties *)

Lemma sample_world_debits_exactly (balance already_released : N) :
  debits_exactly (sample_world balance already_released).
Proof.
  intros amount tok' Htr.
  apply (ERC20_transfer_debits
           (erc20 (sample_world balance already_released)) tok' 100 200).
  - discriminate.
  - exact Htr.
Qed.

Lemma release_fails_before_cliff_witness :
  exists f,
    transact (release 1005) (sample_world 1000 0)
    = (Revert f, sample_world 1000 0).
Proof.
  apply (release_fails_before_cliff (sample_world 1000 0) 1005). reflexivity.
Defined.

Lemma fresh_contract_cannot_release_witness :
  5 <= 1000 /\
  exists f,
    transact (release 5)
      (Build_world (erc20 (sample_world 1000 0)) (sample_vesting 0))
    = (Revert f,
       Build_world (erc20 (sample_world 1000 0)) (sample_vesting 0)).
Proof.
  apply (fresh_contract_cannot_release Ownable_nonzero
           100 5 7 200 1000 10 100 1 (sample_vesting 0)
           (erc20 (sample_world 1000 0)) 5).
  - reflexivity.
  - vm_compute; discriminate.
Defined.

Lemma releasable_amount_le_balance_witness :
  200 <= balanceOf (erc20 (sample_world 700 300))
           (this (vesting (sample_world 700 300))).
Proof.
  apply (releasable_amount_le_balance (sample_world 700 300) 1050 200).
  reflexivity.
Defined.



Lemma second_release_nothing_due_witness :
  exists w',
    transact (release 1050) (sample_world 1000 0) = (Ok tt, w') /\
    releasable_amount 1050 w' = Ok 0 /\
    transact (release 1050) w'
    = (Revert (Error "TokenVesting: no tokens are due"), w').
Proof.
  eexists.
  assert (Hrel : transact (release 1050) (sample_world 1000 0)
                 = (Ok tt, _)) by reflexivity.
  split; [exact Hrel |].
  exact (second_release_nothing_due _ _ 1050
           (sample_world_debits_exactly 1000 0) Hrel).
Defined.

Lemma release_after_end_empties_witness :
  exists w',
    transact (release 1100) (sample_world 700 300) = (Ok tt, w') /\
    balanceOf (erc20 w') (this (vesting w')) = 0 /\
    released (vesting w') = 700 + 300.
Proof.
  eexists.
  assert (Hrel : transact (release 1100) (sample_world 700 300)
                 = (Ok tt, _)) by reflexivity.
  split; [exact Hrel |].
  apply (release_after_end_empties _ _ 1100
           (sample_world_debits_exactly 700 300)).
  - vm_compute; discriminate.
  - vm_compute; discriminate.
  - exact Hrel.
Defined.

Lemma release_twice_pays_vested_witness :
  exists w1 w2,
    transact (release 1020) (sample_world 1000 0) = (Ok tt, w1) /\
    transact (release 1050) w1 = (Ok tt, w2) /\
    _vested_amount (sample_world 1000 0) 1050 = Ok (released (vesting w2)) /\
    released (vesting (sample_world 1000 0)) < released (vesting w1) /\
    released (vesting w1) < released (vesting w2).
Proof.
  eexists. eexists.
  assert (Hrel1 : transact (release 1020) (sample_world 1000 0)
                  = (Ok tt, _)) by (vm_compute; reflexivity).
  split; [exact Hrel1 |].
  match type of Hrel1 with
  | _ = (_, ?w1) =>
      assert (Hrel2 : transact (release 1050) w1 = (Ok tt, _))
        by (vm_compute; reflexivity)
  end.
  split; [exact Hrel2 |].
  exact (release_twice_pays_vested _ _ _ 1020 1050
           (sample_world_debits_exactly 1000 0) Hrel1 Hrel2).
Defined.

Lemma releasable_after_end_is_balance_witness :
  releasable_amount 1100 (sample_world 700 300)
  = Ok (balanceOf (erc20 (sample_world 700 300))
          (this (vesting (sample_world 700 300)))) /\
  balanceOf (erc20 (sample_world 700 300))
    (this (vesting (sample_world 700 300))) = 700.
Proof.
  split; [| reflexivity].
  apply (releasable_after_end_is_balance (sample_world 700 300) 1100);
    vm_compute; discriminate.
Defined.

(** The constructor accepts a schedule that starts at the last [uint256]
    with a cliff of one second; nothing can ever be released from it. *)
Lemma release_locked_on_overflow_witness :
  constructor Ownable_nonzero 100 5 7 200 MAX_UINT256 1 1 1
  = Ok (vesting (locked_world 1000)) /\
  _vested_amount (locked_world 1000) MAX_UINT256 = Revert (Panic ARITHMETIC) /\
  exists f,
    transact (release MAX_UINT256) (locked_world 1000)
    = (Revert f, locked_world 1000).
Proof.
  split; [reflexivity |].
  apply (release_locked_on_overflow (locked_world 1000) MAX_UINT256).
  left. reflexivity.
Defined.

Module PageRuns.
Import Frontend FrontendFacts Page PageFacts.




Lemma handleChange_sets_field_witness :
  read_form (handleChange "startTime" "2027-01-01T00:00" initial_formData)
  = Some {| tokenAddress := "0xTokenAddressHere";
            beneficiaryAddress := "0xBeneficiaryAddressHere";
            startTime := "2027-01-01T00:00";
            cliffDurationSeconds := "2592000";
            totalVestingSeconds := "31536000";
            initialOwnerAddress := "0xInitialOwnerAddressHere" |} /\
  handleChange "startTime" "2027-01-01T00:00" initial_formData !! "startTime"
  = Some "2027-01-01T00:00".
Proof.
  assert (Hread : read_form initial_formData
                  = Some {| tokenAddress := "0xTokenAddressHere";
                            beneficiaryAddress := "0xBeneficiaryAddressHere";
                            startTime := EmptyString;
                            cliffDurationSeconds := "2592000";
                            totalVestingSeconds := "31536000";
                            initialOwnerAddress := "0xInitialOwnerAddressHere"
                         |}) by reflexivity.
  destruct (handleChange_sets_field initial_formData _ "startTime"
              "2027-01-01T00:00" Hread) as (Hset & Hlook & _).
  split; [exact Hset | exact Hlook].
Defined.

Lemma edit_changes_one_param_witness :
  exists fd',
    read_form (handleChange "cliffDurationSeconds" "86400" initial_formData)
    = Some fd' /\
    params (handleSubmit_payload sample_getTime 0 fd') !! "cliff_duration"
    = Some (VNumber (Int 86400)) /\
    params (handleSubmit_payload sample_getTime 0 fd') !! "duration"
    = Some (VNumber (Int 31536000)).
Proof.
  assert (Hread : read_form initial_formData
                  = Some {| tokenAddress := "0xTokenAddressHere";
                            beneficiaryAddress := "0xBeneficiaryAddressHere";
                            startTime := EmptyString;
                            cliffDurationSeconds := "2592000";
                            totalVestingSeconds := "31536000";
                            initialOwnerAddress := "0xInitialOwnerAddressHere"
                         |}) by reflexivity.
  destruct (edit_changes_one_param sample_getTime 0 initial_formData _
              "86400" Hread) as (_ & _ & _ & (fd' & Hfd' & Hparams) & _).
  exists fd'. split; [exact Hfd' |].
  rewrite Hparams. split; reflexivity.
Defined.

End PageRuns.
